(** * anthropic._compat: the pydantic v1/v2 compatibility façade

    A shallow embedding of [src/anthropic/_compat.py].  The module detects the
    installed major version of pydantic once, when it is imported, and exposes
    a handful of forwarding functions that branch on the detected flag.

    Python is dynamically typed: what [model.model_dump()] does is decided by
    the object it is called on.  The embedding therefore keeps the objects
    abstract behind a [Runtime] interface (attribute lookup, method call, call,
    [==], truth value) and threads the object store through every call. *)

From Stdlib Require Import String Ascii List ZArith Bool Lia DecimalString
  DecimalNat.
Import ListNotations.
Open Scope string_scope.
Set Warnings "-register-all".

(* ================================================================== *)
(** ** Python values, exceptions and the object store                  *)
(* ================================================================== *)

Module Py.

Definition loc := nat.

Inductive exn : Type :=
| AttributeError (name : string)
| TypeError (msg : string)
| ValueError (msg : string)
| ValidationError (msg : string)
| RecursionError
| NotImplementedError (what : string).

(** The values that cross the façade.  [VGlobal m n] is the object reached by
    [from m import n]: a library class, function or singleton.  [VAlias o args]
    is a subscripted generic such as [Union[int, str]].  [VRef l] points into
    the object store. *)
Inductive value : Type :=
| VNone
| VBool (b : bool)
| VInt (z : Z)
| VStr (s : string)
| VDatetime (year month day hour minute second : Z)
| VTuple (items : list value)
| VList (items : list value)
| VDict (items : list (string * value))
| VGlobal (modname name : string)
| VAlias (origin : value) (args : list value)
| VRef (l : loc).

(** An object of the store: its class and its instance dictionary, in
    insertion order. *)
Record obj : Type := { o_class : value; o_dict : list (string * value) }.

Definition heap := list obj.

Inductive result (A : Type) : Type :=
| Ok (a : A)
| Raise (e : exn).
Arguments Ok {A} a.
Arguments Raise {A} e.

(** Computations that may raise and may change a state [S]; a raised
    exception keeps the state reached so far. *)
Definition SE (S A : Type) : Type := S -> result A * S.

Definition ret {S A} (a : A) : SE S A := fun s => (Ok a, s).
Definition raise {S A} (e : exn) : SE S A := fun s => (Raise e, s).
Definition bind {S A B} (m : SE S A) (k : A -> SE S B) : SE S B :=
  fun s => match m s with
           | (Ok a, s') => k a s'
           | (Raise e, s') => (Raise e, s')
           end.

Notation "x <- m ;; k" := (bind m (fun x => k))
  (at level 61, m at next level, right associativity).

Definition M := SE heap.

Fixpoint assoc {A} (k : string) (l : list (string * A)) : option A :=
  match l with
  | [] => None
  | (k', v) :: l' => if String.eqb k k' then Some v else assoc k l'
  end.

(** [a == b] on values that carry no user-defined [__eq__].  [bool] is a
    subclass of [int], dictionaries compare regardless of order, references
    compare by identity. *)
Fixpoint value_eqb (a b : value) {struct a} : bool :=
  match a, b with
  | VNone, VNone => true
  | VBool x, VBool y => Bool.eqb x y
  | VBool x, VInt y => Z.eqb (Z.b2z x) y
  | VInt x, VBool y => Z.eqb x (Z.b2z y)
  | VInt x, VInt y => Z.eqb x y
  | VStr x, VStr y => String.eqb x y
  | VDatetime y1 m1 d1 h1 i1 s1, VDatetime y2 m2 d2 h2 i2 s2 =>
      Z.eqb y1 y2 && Z.eqb m1 m2 && Z.eqb d1 d2 &&
      Z.eqb h1 h2 && Z.eqb i1 i2 && Z.eqb s1 s2
  | VTuple xs, VTuple ys =>
      (fix go (xs ys : list value) : bool :=
         match xs, ys with
         | [], [] => true
         | x :: xs', y :: ys' => value_eqb x y && go xs' ys'
         | _, _ => false
         end) xs ys
  | VList xs, VList ys =>
      (fix go (xs ys : list value) : bool :=
         match xs, ys with
         | [], [] => true
         | x :: xs', y :: ys' => value_eqb x y && go xs' ys'
         | _, _ => false
         end) xs ys
  | VDict xs, VDict ys =>
      Nat.eqb (length xs) (length ys) &&
      (fix go (xs : list (string * value)) : bool :=
         match xs with
         | [] => true
         | (k, x) :: xs' =>
             match assoc k ys with
             | Some y => value_eqb x y && go xs'
             | None => false
             end
         end) xs
  | VGlobal m n, VGlobal m' n' => String.eqb m m' && String.eqb n n'
  | VAlias o xs, VAlias o' ys =>
      value_eqb o o' &&
      (fix go (xs ys : list value) : bool :=
         match xs, ys with
         | [], [] => true
         | x :: xs', y :: ys' => value_eqb x y && go xs' ys'
         | _, _ => false
         end) xs ys
  | VRef l, VRef l' => Nat.eqb l l'
  | _, _ => false
  end.

(** [a is b] for a module-level object [b]. *)
Definition is_global (a : value) (modname name : string) : bool :=
  match a with
  | VGlobal m n => String.eqb m modname && String.eqb n name
  | _ => false
  end.

(** What the objects of the store do: the part of Python that is decided by
    the classes of the installed libraries and of the caller. *)
Class Runtime : Type := {
  (** [obj.name] *)
  rt_getattr : value -> string -> M value;
  (** [obj.name( *args )] *)
  rt_call_method : value -> string -> list value -> M value;
  (** [f( *args )] for a callable object of a library or of the store *)
  rt_call : value -> list value -> M value;
  (** [a == b] when [a] or [b] is an object of the store or of a library:
      the outcome of the [__eq__] protocol, whatever object it returns *)
  rt_eq : value -> value -> M value;
  (** [bool(a)] for an object of the store or of a library *)
  rt_truth : value -> M bool
}.

Section Builtins.
Context {rt : Runtime}.

Definition py_getattr (o : value) (name : string) : M value :=
  rt_getattr o name.

Definition py_call_method (o : value) (name : string) (args : list value)
  : M value :=
  rt_call_method o name args.

(** Calling a value.  [None], numbers, strings and containers are not
    callable. *)
Definition py_call (f : value) (args : list value) : M value :=
  match f with
  | VGlobal _ _ | VAlias _ _ | VRef _ => rt_call f args
  | VNone => raise (TypeError "'NoneType' object is not callable")
  | _ => raise (TypeError "object is not callable")
  end.

(** The operands whose class may define [__eq__] and [__bool__] as it
    likes: the objects of the store and the objects of a library
    ([unittest.mock.ANY], [pandas.NA], a class, a function).  The undefined
    sentinel of pydantic 2 is a library object whose class defines neither:
    it compares by identity. *)
Definition own_eq (v : value) : bool :=
  match v with
  | VRef _ => true
  | VGlobal _ _ => negb (is_global v "pydantic_core" "PydanticUndefined")
  | _ => false
  end.

(** [a == b]: the left operand's [__eq__] runs first; an operand of the
    language itself that does not know the other one defers to it. *)
Definition py_eq (a b : value) : M value :=
  if own_eq a then rt_eq a b
  else if own_eq b then rt_eq b a
  else ret (VBool (value_eqb a b)).

(** The truth value taken by [if v:]. *)
Definition py_truth (v : value) : M bool :=
  match v with
  | VNone => ret false
  | VBool b => ret b
  | VInt z => ret (negb (Z.eqb z 0))
  | VStr s => ret (negb (String.eqb s EmptyString))
  | VTuple l | VList l => ret (negb (Nat.eqb (length l) 0))
  | VDict l => ret (negb (Nat.eqb (length l) 0))
  | VDatetime _ _ _ _ _ _ | VAlias _ _ => ret true
  | VGlobal _ _ | VRef _ => rt_truth v
  end.
End Builtins.

(** [s.startswith(prefix)] *)
Definition startswith (s prefix : string) : bool := String.prefix prefix s.

(** [from modname import name] for a module that is already loaded. *)
Definition import_from (modname name : string) : value := VGlobal modname name.

(** [typing.cast] returns its argument. *)
Definition cast (v : value) : value := v.

End Py.
Import Py.

(* ================================================================== *)
(** ** The module [anthropic._compat]                                  *)
(* ================================================================== *)

Module Compat.

(** The names the module binds when it is imported. *)
Record namespace : Type := {
  PYDANTIC_V2 : bool;
  get_args : value;
  is_union : value;
  get_origin : value;
  is_typeddict : value;
  is_literal_type : value;
  parse_date : value;
  parse_datetime : value;
  ConfigDict : value;
  GenericModel : value
}.

(** The state of the process as the module sees it: its own globals and the
    object store. *)
Record state : Type := { globals : namespace; store : heap }.

Definition F := SE state.

(** Reading a global name; Python looks it up again at every use. *)
Definition global {A} (sel : namespace -> A) : F A :=
  fun st => (Ok (sel (globals st)), st).

(** A computation on the object store, run from inside the module: the
    globals are not in its reach. *)
Definition lift {A} (m : M A) : F A :=
  fun st => let (r, h') := m (store st) in
            (r, {| globals := globals st; store := h' |}).

(** [typing.TYPE_CHECKING] is false when the program runs. *)
Definition TYPE_CHECKING : bool := false.

(** The class statement [class GenericModel(bases): ...] *)
Definition class_GenericModel (v2 : bool) : obj :=
  if v2 then
    {| o_class := VGlobal "pydantic._internal._model_construction" "ModelMetaclass";
       o_dict := [("__name__", VStr "GenericModel");
                  ("__bases__", VTuple [VGlobal "pydantic" "BaseModel"])] |}
  else
    {| o_class := VGlobal "pydantic.main" "ModelMetaclass";
       o_dict := [("__name__", VStr "GenericModel");
                  ("__bases__", VTuple [VGlobal "pydantic.generics" "GenericModel";
                                        VGlobal "pydantic" "BaseModel"])] |}.

(** Importing the module: the module body, top to bottom.  [VERSION] is
    [pydantic.VERSION]. *)
Definition load (VERSION : string) (h : heap) : state :=
  let PYDANTIC_V2 := startswith VERSION "2." in
  let typing_ :=
    if TYPE_CHECKING then "anthropic._compat"
    else if PYDANTIC_V2 then "pydantic.v1.typing" else "pydantic.typing" in
  let datetime_parse_ :=
    if TYPE_CHECKING then "anthropic._compat"
    else if PYDANTIC_V2 then "pydantic.v1.datetime_parse"
         else "pydantic.datetime_parse" in
  let ConfigDict :=
    if TYPE_CHECKING then import_from "pydantic" "ConfigDict"
    else if PYDANTIC_V2 then import_from "pydantic" "ConfigDict"
         else VNone in
  {| globals :=
       {| PYDANTIC_V2 := PYDANTIC_V2;
          get_args := import_from typing_ "get_args";
          is_union := import_from typing_ "is_union";
          get_origin := import_from typing_ "get_origin";
          is_typeddict := import_from typing_ "is_typeddict";
          is_literal_type := import_from typing_ "is_literal_type";
          parse_date := import_from datetime_parse_ "parse_date";
          parse_datetime := import_from datetime_parse_ "parse_datetime";
          ConfigDict := ConfigDict;
          GenericModel := VRef (length h) |};
     store := (h ++ [class_GenericModel PYDANTIC_V2])%list |}.

Section Facade.
Context {rt : Runtime}.

Definition parse_obj (model v : value) : F value :=
  v2 <- global PYDANTIC_V2 ;;
  if v2 then lift (py_call_method model "model_validate" [v])
  else r <- lift (py_call_method model "parse_obj" [v]) ;; ret (cast r).

Definition field_is_required (field : value) : F value :=
  v2 <- global PYDANTIC_V2 ;;
  if v2 then lift (py_call_method field "is_required" [])
  else lift (py_getattr field "required").

Definition field_get_default (field : value) : F value :=
  v <- lift (py_call_method field "get_default" []) ;;
  v2 <- global PYDANTIC_V2 ;;
  if v2 then
    let PydanticUndefined := import_from "pydantic_core" "PydanticUndefined" in
    c <- lift (py_eq v PydanticUndefined) ;;
    b <- lift (py_truth c) ;;
    if b then ret VNone else ret v
  else ret v.

Definition field_outer_type (field : value) : F value :=
  v2 <- global PYDANTIC_V2 ;;
  if v2 then lift (py_getattr field "annotation")
  else lift (py_getattr field "outer_type_").

Definition get_model_config (model : value) : F value :=
  v2 <- global PYDANTIC_V2 ;;
  if v2 then lift (py_getattr model "model_config")
  else lift (py_getattr model "__config__").

Definition get_model_fields (model : value) : F value :=
  v2 <- global PYDANTIC_V2 ;;
  if v2 then lift (py_getattr model "model_fields")
  else lift (py_getattr model "__fields__").

Definition model_copy (model : value) : F value :=
  v2 <- global PYDANTIC_V2 ;;
  if v2 then lift (py_call_method model "model_copy" [])
  else lift (py_call_method model "copy" []).

Definition model_json (model : value) : F value :=
  v2 <- global PYDANTIC_V2 ;;
  if v2 then lift (py_call_method model "model_dump_json" [])
  else lift (py_call_method model "json" []).

Definition model_dump (model : value) : F value :=
  v2 <- global PYDANTIC_V2 ;;
  if v2 then lift (py_call_method model "model_dump" [])
  else r <- lift (py_call_method model "dict" []) ;; ret (cast r).

(** A caller's use of a re-exported name, [_compat.is_union(tp)] or
    [_compat.ConfigDict(...)]: look the name up, call what it is bound to. *)
Definition call_global (sel : namespace -> value) (args : list value)
  : F value :=
  f <- global sel ;; lift (py_call f args).

(** One call into the module. *)
Inductive op : Type :=
| Parse_obj (model v : value)
| Field_is_required (field : value)
| Field_get_default (field : value)
| Field_outer_type (field : value)
| Get_model_config (model : value)
| Get_model_fields (model : value)
| Model_copy (model : value)
| Model_json (model : value)
| Model_dump (model : value).

Definition exec (o : op) : F value :=
  match o with
  | Parse_obj model v => parse_obj model v
  | Field_is_required field => field_is_required field
  | Field_get_default field => field_get_default field
  | Field_outer_type field => field_outer_type field
  | Get_model_config model => get_model_config model
  | Get_model_fields model => get_model_fields model
  | Model_copy model => model_copy model
  | Model_json model => model_json model
  | Model_dump model => model_dump model
  end.

(** A process: calls into the module one after the other, each on the state
    the previous one left.  Returns the results and the states the calls
    started from, then the final state. *)
Fixpoint run (os : list op) (st : state)
  : list (state * result value) * state :=
  match os with
  | [] => ([], st)
  | o :: os' =>
      let (r, st') := exec o st in
      let (rs, st'') := run os' st' in
      ((st, r) :: rs, st'')
  end.
End Facade.

End Compat.
Import Compat.

(* ================================================================== *)
(** ** JSON text                                                       *)
(* ================================================================== *)

(** The string form of a model is JSON text.  [dumps] writes the text of a
    value the way [json.dumps] does, with the two separators as parameters;
    [loads] reads it back.  Numbers are integers. *)
Module Json.

Definition dquote : ascii := "034"%char.
Definition backslash : ascii := "092"%char.

Definition string_of_nat (n : nat) : string :=
  NilZero.string_of_uint (Nat.to_uint n).

Definition string_of_Z (z : Z) : string :=
  if (z <? 0)%Z then "-" ++ string_of_nat (Z.to_nat (- z))
  else string_of_nat (Z.to_nat z).

(** [n] written on at least [width] digits. *)
Fixpoint zfill (width : nat) (s : string) : string :=
  match width with
  | O => s
  | S w => if Nat.leb width (String.length s) then s else zfill w ("0" ++ s)
  end.

(** [datetime.isoformat()] of a naive datetime without microseconds. *)
Definition isoformat (y mo d h mi s : Z) : string :=
  let f w z := zfill w (string_of_Z z) in
  f 4%nat y ++ "-" ++ f 2%nat mo ++ "-" ++ f 2%nat d ++ "T" ++
  f 2%nat h ++ ":" ++ f 2%nat mi ++ ":" ++ f 2%nat s.

Fixpoint escape (s : string) : string :=
  match s with
  | EmptyString => EmptyString
  | String c s' =>
      if (c =? dquote)%char || (c =? backslash)%char
      then String backslash (String c (escape s'))
      else String c (escape s')
  end.

Definition quote (s : string) : string :=
  String dquote (escape s ++ String dquote EmptyString).

(** The text of a value; a datetime is written as its ISO string, a tuple as
    an array.  Objects of the store and library objects have no text. *)
Fixpoint dumps (item_sep key_sep : string) (v : value) : option string :=
  match v with
  | VNone => Some "null"
  | VBool true => Some "true"
  | VBool false => Some "false"
  | VInt z => Some (string_of_Z z)
  | VStr s => Some (quote s)
  | VDatetime y mo d h mi s => Some (quote (isoformat y mo d h mi s))
  | VTuple l | VList l =>
      match (fix go (first : bool) (l : list value) : option string :=
               match l with
               | [] => Some EmptyString
               | x :: l' =>
                   match dumps item_sep key_sep x, go false l' with
                   | Some a, Some b =>
                       Some ((if first then EmptyString else item_sep) ++ a ++ b)
                   | _, _ => None
                   end
               end) true l with
      | Some body => Some ("[" ++ body ++ "]")
      | None => None
      end
  | VDict l =>
      match (fix go (first : bool) (l : list (string * value)) : option string :=
               match l with
               | [] => Some EmptyString
               | (k, x) :: l' =>
                   match dumps item_sep key_sep x, go false l' with
                   | Some a, Some b =>
                       Some ((if first then EmptyString else item_sep) ++
                             quote k ++ key_sep ++ a ++ b)
                   | _, _ => None
                   end
               end) true l with
      | Some body => Some ("{" ++ body ++ "}")
      | None => None
      end
  | VGlobal _ _ | VAlias _ _ | VRef _ => None
  end.

Definition is_ws (c : ascii) : bool :=
  (c =? " ")%char || (c =? "009")%char || (c =? "010")%char || (c =? "013")%char.

Definition digit (c : ascii) : option Z :=
  let n := nat_of_ascii c in
  if Nat.leb 48 n && Nat.leb n 57 then Some (Z.of_nat (n - 48)) else None.

Fixpoint skip_ws (s : string) : string :=
  match s with
  | String c s' => if is_ws c then skip_ws s' else s
  | EmptyString => s
  end.

(** The digits at the head of [s], as a number, and what follows them. *)
Fixpoint read_digits (acc : Z) (s : string) : Z * string :=
  match s with
  | String c s' =>
      match digit c with
      | Some d => read_digits (10 * acc + d) s'
      | None => (acc, s)
      end
  | EmptyString => (acc, s)
  end.

Definition read_number (s : string) : option (Z * string) :=
  match s with
  | String c _ =>
      match digit c with
      | Some _ => Some (read_digits 0 s)
      | None => None
      end
  | EmptyString => None
  end.

(** The body of a string literal, after its opening quote. *)
Fixpoint read_string (s : string) : option (string * string) :=
  match s with
  | EmptyString => None
  | String c s' =>
      if (c =? dquote)%char then Some (EmptyString, s')
      else if (c =? backslash)%char then
        match s' with
        | String e s'' =>
            if (e =? dquote)%char || (e =? backslash)%char then
              match read_string s'' with
              | Some (body, rest) => Some (String e body, rest)
              | None => None
              end
            else None
        | EmptyString => None
        end
      else
        match read_string s' with
        | Some (body, rest) => Some (String c body, rest)
        | None => None
        end
  end.

Fixpoint strip (prefix s : string) : option string :=
  match prefix, s with
  | EmptyString, _ => Some s
  | String p prefix', String c s' =>
      if (p =? c)%char then strip prefix' s' else None
  | _, EmptyString => None
  end.

Fixpoint read_value (fuel : nat) (s : string) : option (value * string) :=
  match fuel with
  | O => None
  | S n =>
      match skip_ws s with
      | EmptyString => None
      | String c rest =>
          if (c =? "n")%char then
            option_map (fun r => (VNone, r)) (strip "ull" rest)
          else if (c =? "t")%char then
            option_map (fun r => (VBool true, r)) (strip "rue" rest)
          else if (c =? "f")%char then
            option_map (fun r => (VBool false, r)) (strip "alse" rest)
          else if (c =? dquote)%char then
            option_map (fun '(b, r) => (VStr b, r)) (read_string rest)
          else if (c =? "-")%char then
            option_map (fun '(z, r) => (VInt (- z), r)) (read_number rest)
          else if (c =? "[")%char then
            match skip_ws rest with
            | String c' rest' =>
                if (c' =? "]")%char then Some (VList [], rest')
                else option_map (fun '(l, r) => (VList l, r)) (read_items n rest)
            | EmptyString => None
            end
          else if (c =? "{")%char then
            match skip_ws rest with
            | String c' rest' =>
                if (c' =? "}")%char then Some (VDict [], rest')
                else option_map (fun '(l, r) => (VDict l, r)) (read_members n rest)
            | EmptyString => None
            end
          else option_map (fun '(z, r) => (VInt z, r)) (read_number (String c rest))
      end
  end

with read_items (fuel : nat) (s : string) : option (list value * string) :=
  match fuel with
  | O => None
  | S n =>
      match read_value n s with
      | Some (v, s1) =>
          match skip_ws s1 with
          | String c s2 =>
              if (c =? ",")%char then
                option_map (fun '(l, r) => (v :: l, r)) (read_items n s2)
              else if (c =? "]")%char then Some ([v], s2)
              else None
          | EmptyString => None
          end
      | None => None
      end
  end

with read_members (fuel : nat) (s : string)
  : option (list (string * value) * string) :=
  match fuel with
  | O => None
  | S n =>
      match skip_ws s with
      | String q s0 =>
          if (q =? dquote)%char then
            match read_string s0 with
            | Some (k, s1) =>
                match skip_ws s1 with
                | String colon s2 =>
                    if (colon =? ":")%char then
                      match read_value n s2 with
                      | Some (v, s3) =>
                          match skip_ws s3 with
                          | String c s4 =>
                              if (c =? ",")%char then
                                option_map (fun '(l, r) => ((k, v) :: l, r))
                                           (read_members n s4)
                              else if (c =? "}")%char then Some ([(k, v)], s4)
                              else None
                          | EmptyString => None
                          end
                      | None => None
                      end
                    else None
                | EmptyString => None
                end
            | None => None
            end
          else None
      | EmptyString => None
      end
  end.

(** [json.loads]: the whole text is one value. *)
Definition loads (s : string) : option value :=
  match read_value (2 * String.length s + 2) s with
  | Some (v, rest) =>
      match skip_ws rest with
      | EmptyString => Some v
      | String _ _ => None
      end
  | None => None
  end.

End Json.

(* ================================================================== *)
(** ** The installed library                                           *)
(* ================================================================== *)

(** pydantic is a dependency of the package, not part of it.  This module
    gives the objects the façade is handed a concrete behaviour, after the
    documented behaviour of pydantic 1.10 and pydantic 2: field metadata
    ([ModelField], [FieldInfo]), model classes and instances, the helpers of
    [pydantic.typing], and one class of another library whose [==] is not a
    plain comparison ([numpy.ndarray]).  It is the [Runtime] the examples
    below are run in; the theorems about the façade hold in every [Runtime]. *)
Module Pydantic.

Definition PydanticUndefined : value := VGlobal "pydantic_core" "PydanticUndefined".
Definition Undefined : value := VGlobal "pydantic.fields" "Undefined".
Definition Union : value := VGlobal "typing" "Union".
Definition UnionType : value := VGlobal "types" "UnionType".
Definition Literal : value := VGlobal "typing" "Literal".
Definition int_ : value := VGlobal "builtins" "int".
Definition str_ : value := VGlobal "builtins" "str".
Definition datetime_ : value := VGlobal "datetime" "datetime".

Definition FieldInfo : value := VGlobal "pydantic.fields" "FieldInfo".
Definition ModelField : value := VGlobal "pydantic.fields" "ModelField".
Definition ndarray : value := VGlobal "numpy" "ndarray".
Definition ModelMetaclass (v2 : bool) : value :=
  if v2 then VGlobal "pydantic._internal._model_construction" "ModelMetaclass"
  else VGlobal "pydantic.main" "ModelMetaclass".

(** *** The store *)

Definition lookup (l : loc) : M obj :=
  fun h => match nth_error h l with
           | Some o => (Ok o, h)
           | None => (Raise (ValueError "no such object"), h)
           end.

Definition alloc (o : obj) : M value :=
  fun h => (Ok (VRef (List.length h)), (h ++ [o])%list).

Definition attr (o : obj) (name : string) : M value :=
  match assoc name (o_dict o) with
  | Some v => ret v
  | None => raise (AttributeError name)
  end.

Definition deref (v : value) : M obj :=
  match v with
  | VRef l => lookup l
  | _ => raise (TypeError "not an object of the store")
  end.

(** *** Field metadata *)

Inductive default_spec : Type :=
| NoDefault
| Default (v : value).

(** A field as the class body declares it: [name: annotation] or
    [name: annotation = default]. *)
Record declaration : Type := { d_annotation : value; d_default : default_spec }.

Definition mandatory (d : declaration) : bool :=
  match d_default d with NoDefault => true | Default _ => false end.

(** pydantic 2 keeps a [FieldInfo] per field; a field without a default has
    the sentinel there. *)
Definition field_info (d : declaration) : obj :=
  {| o_class := FieldInfo;
     o_dict := [("annotation", d_annotation d);
                ("default", match d_default d with
                            | NoDefault => PydanticUndefined
                            | Default v => v
                            end);
                ("default_factory", VNone)] |}.

(** What pydantic 1 takes for "no value": [None], its type, and in a union
    also [Any] and [object]. *)
Definition is_none_type (t : value) : bool :=
  match t with
  | VNone => true
  | _ => is_global t "builtins" "NoneType" || is_global t "types" "NoneType"
  end.

Definition is_any_or_object (t : value) : bool :=
  is_global t "typing" "Any" || is_global t "builtins" "object".

Definition is_union_origin (t : value) : bool :=
  is_global t "typing" "Union" || is_global t "types" "UnionType".

(** The annotations for which pydantic 1 lets a field go without a value:
    [Any], [object], and a union with [None], [Any] or [object] among its
    alternatives ([Optional[X]] is [Union[X, None]]). *)
Definition admits_none (annotation : value) : bool :=
  match annotation with
  | VAlias origin args =>
      is_union_origin origin &&
      existsb (fun t => is_none_type t || is_any_or_object t) args
  | _ => is_any_or_object annotation
  end.

(** The type pydantic 1 keeps as [outer_type_]: the annotation, except that
    [Optional[X]] is kept as [X]. *)
Definition outer_type (annotation : value) : value :=
  match annotation with
  | VAlias origin args =>
      if is_union_origin origin then
        match filter (fun t => negb (is_none_type t)) args with
        | [t] => t
        | _ => annotation
        end
      else annotation
  | _ => annotation
  end.

(** Whether the installed pydantic takes the field for required. *)
Definition reported_required (v2 : bool) (d : declaration) : bool :=
  mandatory d && (v2 || negb (admits_none (d_annotation d))).

(** pydantic 1 keeps a [ModelField] per field; once prepared, a field without
    a default has [None] as its default, and is required unless its
    annotation admits [None]. *)
Definition model_field (d : declaration) : obj :=
  {| o_class := ModelField;
     o_dict := [("outer_type_", outer_type (d_annotation d));
                ("default", match d_default d with
                            | NoDefault => VNone
                            | Default v => v
                            end);
                ("default_factory", VNone);
                ("required", VBool (reported_required false d))] |}.

Definition field_object (v2 : bool) (d : declaration) : obj :=
  if v2 then field_info d else model_field d.

(** [smart_deepcopy]: immutable values are returned as they are, an object is
    duplicated. *)
Definition smart_deepcopy (v : value) : M value :=
  match v with
  | VRef l => o <- lookup l ;; alloc o
  | _ => ret v
  end.

(** The values [smart_deepcopy] returns as they are. *)
Definition immutable (v : value) : bool :=
  match v with
  | VNone | VBool _ | VInt _ | VStr _ | VDatetime _ _ _ _ _ _ => true
  | _ => false
  end.

(** The default a field reports once it is built. *)
Definition declared_default (v2 : bool) (d : declaration) : value :=
  match d_default d with
  | NoDefault => if v2 then PydanticUndefined else VNone
  | Default v => v
  end.

(** [FieldInfo.is_required] *)
Definition FieldInfo_is_required (o : obj) : M value :=
  default <- attr o "default" ;;
  factory <- attr o "default_factory" ;;
  ret (VBool (is_global default "pydantic_core" "PydanticUndefined" &&
              value_eqb factory VNone)).

(** [FieldInfo.get_default] and [ModelField.get_default], called without
    arguments.  Only [list] and [dict] are known as factories. *)
Definition Field_get_default (v2 : bool) (o : obj) : M value :=
  default <- attr o "default" ;;
  factory <- attr o "default_factory" ;;
  if value_eqb factory VNone then smart_deepcopy default
  else if v2 then ret VNone
  else if is_global factory "builtins" "list" then ret (VList [])
  else if is_global factory "builtins" "dict" then ret (VDict [])
  else raise (NotImplementedError "default_factory").

(** *** Models *)

Definition model_class (v2 : bool) (name : string)
           (fields : list (string * value)) : obj :=
  {| o_class := ModelMetaclass v2;
     o_dict :=
       if v2 then [("__name__", VStr name);
                   ("model_fields", VDict fields);
                   ("model_config", VDict [])]
       else [("__name__", VStr name);
             ("__fields__", VDict fields);
             ("__config__", VGlobal "pydantic.main" "BaseConfig")] |}.

Definition instance (cls : loc) (values : list (string * value)) : obj :=
  {| o_class := VRef cls; o_dict := values |}.

(** Validation of a mapping against the fields of a class: a value that is
    given is taken as it is, one that is missing is the field's default, and
    a mandatory field that is missing is an error. *)
Fixpoint fill (v2 : bool) (fields input : list (string * value))
  : M (list (string * value)) :=
  match fields with
  | [] => ret []
  | (name, f) :: fields' =>
      x <- match assoc name input with
           | Some x => ret x
           | None =>
               fo <- deref f ;;
               req <- (if v2 then FieldInfo_is_required fo else attr fo "required") ;;
               if value_eqb req (VBool true)
               then raise (ValidationError name)
               else Field_get_default v2 fo
           end ;;
      rest <- fill v2 fields' input ;;
      ret ((name, x) :: rest)
  end.

Definition validate (v2 : bool) (cls : loc) (input : value) : M value :=
  c <- lookup cls ;;
  fields <- attr c (if v2 then "model_fields" else "__fields__") ;;
  match fields, input with
  | VDict fields, VDict input =>
      values <- fill v2 fields input ;;
      alloc (instance cls values)
  | _, _ => raise (ValidationError "a mapping is expected")
  end.

(** The mapping form of a value: a model instance becomes the mapping of its
    fields, containers are walked, anything else is kept as it is. *)
Fixpoint dump (fuel : nat) (h : heap) (v : value) : result value :=
  match fuel with
  | O => Raise RecursionError
  | S n =>
      let dump_list :=
        fix go (l : list value) : result (list value) :=
          match l with
          | [] => Ok []
          | x :: l' =>
              match dump n h x, go l' with
              | Ok a, Ok b => Ok (a :: b)
              | Raise e, _ => Raise e
              | _, Raise e => Raise e
              end
          end in
      let dump_items :=
        fix go (l : list (string * value)) : result (list (string * value)) :=
          match l with
          | [] => Ok []
          | (k, x) :: l' =>
              match dump n h x, go l' with
              | Ok a, Ok b => Ok ((k, a) :: b)
              | Raise e, _ => Raise e
              | _, Raise e => Raise e
              end
          end in
      match v with
      | VRef l =>
          match nth_error h l with
          | Some o =>
              match o_class o with
              | VRef _ =>
                  match dump_items (o_dict o) with
                  | Ok items => Ok (VDict items)
                  | Raise e => Raise e
                  end
              | _ => Ok v
              end
          | None => Raise (ValueError "no such object")
          end
      | VList l =>
          match dump_list l with Ok l' => Ok (VList l') | Raise e => Raise e end
      | VTuple l =>
          match dump_list l with Ok l' => Ok (VTuple l') | Raise e => Raise e end
      | VDict l =>
          match dump_items l with Ok l' => Ok (VDict l') | Raise e => Raise e end
      | _ => Ok v
      end
  end.

Definition recursion_limit : nat := 100.

Definition model_dump (self : value) : M value :=
  fun h => (dump recursion_limit h self, h).

(** The string form: the JSON text of the mapping form.  pydantic 2 writes
    it without spaces, pydantic 1 with the separators of [json.dumps]. *)
Definition model_dump_json (v2 : bool) (self : value) : M value :=
  d <- model_dump self ;;
  match (if v2 then Json.dumps "," ":" d else Json.dumps ", " ": " d) with
  | Some s => ret (VStr s)
  | None => raise (TypeError "not JSON serializable")
  end.

(** [BaseModel.copy] and [BaseModel.model_copy] without arguments: a new
    instance with the same field values. *)
Definition model_copy (self : loc) : M value :=
  o <- lookup self ;; alloc o.

(** *** [numpy.ndarray] *)

Definition array (data : list value) : obj :=
  {| o_class := ndarray; o_dict := [("data", VList data)] |}.

(** [a == b] compares element by element and returns an array. *)
Definition ndarray_eq (o : obj) (b : value) : M value :=
  data <- attr o "data" ;;
  match data with
  | VList l => alloc (array (map (fun x => VBool (value_eqb x b)) l))
  | _ => raise (TypeError "data")
  end.

Definition ambiguous_truth_value : exn :=
  ValueError "The truth value of an array with more than one element is ambiguous".

Definition ndarray_bool (o : obj) : M bool :=
  data <- attr o "data" ;;
  match data with
  | VList [] => ret false
  | VList [VBool b] => ret b
  | VList [_] => ret true
  | _ => raise ambiguous_truth_value
  end.

(** *** Dispatch *)

Definition ref_getattr (o : value) (name : string) : M value :=
  match o with
  | VRef l => ob <- lookup l ;; attr ob name
  | _ => raise (AttributeError name)
  end.

Definition ref_call_method (v2 : bool) (self : value) (name : string)
           (args : list value) : M value :=
  match self with
  | VRef l =>
      o <- lookup l ;;
      if value_eqb (o_class o) FieldInfo then
        match name, args with
        | "is_required", [] => FieldInfo_is_required o
        | "get_default", [] => Field_get_default true o
        | _, _ => raise (AttributeError name)
        end
      else if value_eqb (o_class o) ModelField then
        match name, args with
        | "get_default", [] => Field_get_default false o
        | _, _ => raise (AttributeError name)
        end
      else if value_eqb (o_class o) (ModelMetaclass v2) then
        match name, args with
        | "parse_obj", [v] => validate v2 l v
        | "model_validate", [v] =>
            if v2 then validate v2 l v else raise (AttributeError name)
        | _, _ => raise (AttributeError name)
        end
      else
        match o_class o with
        | VRef _ =>
            match name, args with
            | "copy", [] => model_copy l
            | "dict", [] => model_dump self
            | "json", [] => model_dump_json v2 self
            | "model_copy", [] =>
                if v2 then model_copy l else raise (AttributeError name)
            | "model_dump", [] =>
                if v2 then model_dump self else raise (AttributeError name)
            | "model_dump_json", [] =>
                if v2 then model_dump_json v2 self else raise (AttributeError name)
            | _, _ => raise (AttributeError name)
            end
        | _ => raise (AttributeError name)
        end
  | _ => raise (AttributeError name)
  end.

(** The helpers of [pydantic.typing], which pydantic 2 ships unchanged as
    [pydantic.v1.typing].  [is_union] compares its argument with the special
    forms themselves: it is meant for the origin of an annotation. *)
Definition typing_get_origin (t : value) : value :=
  match t with VAlias o _ => o | _ => VNone end.

Definition typing_get_args (t : value) : value :=
  match t with VAlias _ args => VTuple args | _ => VTuple [] end.

Definition typing_is_union (tp : value) : value :=
  VBool (is_global tp "typing" "Union" || is_global tp "types" "UnionType").

Definition typing_is_literal_type (t : value) : value :=
  VBool (is_global (typing_get_origin t) "typing" "Literal").

Definition ref_call (v2 : bool) (f : value) (args : list value) : M value :=
  match f with
  | VGlobal m name =>
      if String.eqb m (if v2 then "pydantic.v1.typing" else "pydantic.typing") then
        match name, args with
        | "get_origin", [t] => ret (typing_get_origin t)
        | "get_args", [t] => ret (typing_get_args t)
        | "is_union", [tp] => ret (typing_is_union tp)
        | "is_literal_type", [t] => ret (typing_is_literal_type t)
        | _, _ => raise (NotImplementedError name)
        end
      else if v2 && String.eqb m "pydantic" && String.eqb name "ConfigDict" then
        ret (VDict [])
      else raise (NotImplementedError name)
  | _ => raise (TypeError "object is not callable")
  end.

(** [unittest.mock.ANY] answers true to every comparison; any other object
    compares by identity unless it is an array. *)
Definition ref_eq (a b : value) : M value :=
  match a with
  | VRef l =>
      o <- lookup l ;;
      if value_eqb (o_class o) ndarray then ndarray_eq o b
      else ret (VBool (value_eqb a b))
  | _ =>
      if is_global a "unittest.mock" "ANY" then ret (VBool true)
      else ret (VBool (value_eqb a b))
  end.

Definition ref_truth (v : value) : M bool :=
  match v with
  | VRef l =>
      o <- lookup l ;;
      if value_eqb (o_class o) ndarray then ndarray_bool o else ret true
  | _ => ret true
  end.

(** The runtime of a process that has pydantic 2 ([v2 = true]) or pydantic 1
    installed. *)
Definition runtime (v2 : bool) : Runtime :=
  {| rt_getattr := ref_getattr;
     rt_call_method := ref_call_method v2;
     rt_call := ref_call v2;
     rt_eq := ref_eq;
     rt_truth := ref_truth |}.

End Pydantic.
(* ================================================================== *)
(** ** What the specification says, as definitions                     *)
(* ================================================================== *)

Module Spec.
Section Spec.
Context {rt : Runtime}.

(** The upstream implementation an operation stands for: a method of the
    object it is given, or one of its attributes. *)
Inductive target : Type :=
| Method (self : value) (name : string) (args : list value)
| Attribute (self : value) (name : string).

(** "Under the v2 flag the v2 method, otherwise the v1 method." *)
Definition upstream (v2 : bool) (o : op) : target :=
  match o with
  | Parse_obj model v =>
      Method model (if v2 then "model_validate" else "parse_obj") [v]
  | Field_is_required field =>
      if v2 then Method field "is_required" [] else Attribute field "required"
  | Field_get_default field => Method field "get_default" []
  | Field_outer_type field =>
      Attribute field (if v2 then "annotation" else "outer_type_")
  | Get_model_config model =>
      Attribute model (if v2 then "model_config" else "__config__")
  | Get_model_fields model =>
      Attribute model (if v2 then "model_fields" else "__fields__")
  | Model_copy model => Method model (if v2 then "model_copy" else "copy") []
  | Model_json model =>
      Method model (if v2 then "model_dump_json" else "json") []
  | Model_dump model => Method model (if v2 then "model_dump" else "dict") []
  end.

(** "Directly invoking the upstream implementation." *)
Definition invoke (t : target) : M value :=
  match t with
  | Method self name args => py_call_method self name args
  | Attribute self name => py_getattr self name
  end.

(** The test [v == PydanticUndefined] of an [if]. *)
Definition equals_undefined (v : value) : M bool :=
  c <- py_eq v Pydantic.PydanticUndefined ;; py_truth c.

(** What the body of an operation does with the value the upstream call
    returned: nothing, except in [field_get_default] under v2, where lines
    93-95 run the test [v == PydanticUndefined]. *)
Definition normalize (v2 : bool) (o : op) (v : value) : M value :=
  match o with
  | Field_get_default _ =>
      if v2 then b <- equals_undefined v ;; ret (if b then VNone else v)
      else ret v
  | _ => ret v
  end.

Definition direct (v2 : bool) (o : op) : M value :=
  v <- invoke (upstream v2 o) ;; normalize v2 o v.

(** A process in which every call goes straight to the upstream
    implementation of one fixed version. *)
Fixpoint run_direct (v2 : bool) (os : list op) (h : heap)
  : list (result value) * heap :=
  match os with
  | [] => ([], h)
  | o :: os' =>
      let (r, h') := direct v2 o h in
      let (rs, h'') := run_direct v2 os' h' in
      (r :: rs, h'')
  end.

Definition raises {A S} (r : result A * S) (e : exn) : Prop :=
  fst r = Raise e.

(** "The operation raises an error exactly when the delegated upstream call
    raises one, and it raises that same error." *)
Definition errors_pass_through (o : op) (st : state) : Prop :=
  forall e,
    raises (exec o st) e <->
    raises (invoke (upstream (PYDANTIC_V2 (globals st)) o) (store st)) e.

(** What pydantic promises about the metadata object [f] of a field:
    [is_required()] (v2) or [required] (v1) tells whether the field is
    mandatory, and [get_default()] gives the declared default; for a field
    without one, v2 gives its sentinel and v1 gives [None].  Neither
    touches the store. *)
Definition describes (v2 : bool) (f : value) (is_mandatory : bool)
           (default : value) (h : heap) : Prop :=
  (if v2 then py_call_method f "is_required" [] h
   else py_getattr f "required" h) = (Ok (VBool is_mandatory), h) /\
  py_call_method f "get_default" [] h =
    (Ok (if is_mandatory then (if v2 then Pydantic.PydanticUndefined else VNone)
         else default), h).

(** "Decoding the JSON string yields the same key/value content as the
    mapping." *)
Definition equivalent_data (json mapping : result value) : Prop :=
  exists s d d',
    json = Ok (VStr s) /\ mapping = Ok d /\
    Json.loads s = Some d' /\ value_eqb d' d = true.

(** [c], in [h'], is a shallow copy of [m] made from [h]: a new object with
    the class and the field values of [m] (a field that refers to another
    object refers to the same one), every other object as it was. *)
Definition shallow_copy_of (h : heap) (m : loc) (h' : heap) (c : loc) : Prop :=
  nth_error h c = None /\
  (exists o, nth_error h m = Some o /\ nth_error h' c = Some o) /\
  (forall l, l <> c -> nth_error h' l = nth_error h l).

(** What pydantic promises about copying the instance at [m]. *)
Definition copies_shallowly (v2 : bool) (m : loc) (h : heap) : Prop :=
  exists c h',
    py_call_method (VRef m) (if v2 then "model_copy" else "copy") [] h
      = (Ok (VRef c), h') /\
    shallow_copy_of h m h' c.

(** What the typing helpers of module [m] promise about a union
    annotation [Union[alts]] and about a plain class. *)
Definition typing_contract (m : string) : Prop :=
  forall alts h,
    rt_call (VGlobal m "get_origin") [VAlias Pydantic.Union alts] h
      = (Ok Pydantic.Union, h) /\
    rt_call (VGlobal m "is_union") [Pydantic.Union] h = (Ok (VBool true), h) /\
    rt_call (VGlobal m "get_args") [VAlias Pydantic.Union alts] h
      = (Ok (VTuple alts), h) /\
    forall cm cn,
      rt_call (VGlobal m "get_args") [VGlobal cm cn] h = (Ok (VTuple []), h).

(** "For a union-typed annotation, the union-detection predicate returns
    true, and the type-arguments function returns the alternatives." *)
Definition detects_union (st : state) (tp : value) (alts : list value) : Prop :=
  fst (call_global is_union [tp] st) = Ok (VBool true) /\
  fst (call_global get_args [tp] st) = Ok (VTuple alts).
End Spec.
End Spec.
Import Spec.

(* ================================================================== *)
(** ** Example programs                                                *)
(* ================================================================== *)

Module Examples.
Import Pydantic.

(** The store after
<<
    class Page(BaseModel):
        title: str
        size: int = 10
        note: Optional[str] = None

    class Book(BaseModel):
        cover: Page

    home = Page(title="home", size=3)
    book = Book(cover=home)
>>
    under pydantic 2 ([v2 = true]) or pydantic 1. *)
Definition title : loc := 0.
Definition size : loc := 1.
Definition note : loc := 2.
Definition Page : loc := 3.
Definition home : loc := 4.
Definition cover : loc := 5.
Definition Book : loc := 6.
Definition book : loc := 7.

Definition library (v2 : bool) : heap :=
  [ field_object v2 {| d_annotation := str_; d_default := NoDefault |};
    field_object v2 {| d_annotation := int_; d_default := Default (VInt 10) |};
    field_object v2 {| d_annotation := VAlias Union [str_; VGlobal "builtins" "NoneType"];
                       d_default := Default VNone |};
    model_class v2 "Page" [("title", VRef title); ("size", VRef size);
                           ("note", VRef note)];
    instance Page [("title", VStr "home"); ("size", VInt 3); ("note", VNone)];
    field_object v2 {| d_annotation := VRef Page; d_default := NoDefault |};
    model_class v2 "Book" [("cover", VRef cover)];
    instance Book [("cover", VRef home)] ].

(** The store after
<<
    class Event(BaseModel):
        name: str
        at: datetime

    launch = Event(name="launch", at=datetime(2024, 1, 2, 3, 4, 5))
>>
*)
Definition Event : loc := 2.
Definition launch : loc := 3.

Definition calendar (v2 : bool) : heap :=
  [ field_object v2 {| d_annotation := str_; d_default := NoDefault |};
    field_object v2 {| d_annotation := datetime_; d_default := NoDefault |};
    model_class v2 "Event" [("name", VRef 0); ("at", VRef 1)];
    instance Event [("name", VStr "launch"); ("at", VDatetime 2024 1 2 3 4 5)] ].

(** The store after
<<
    weights = numpy.array([1, 2])
    field = FieldInfo(annotation=numpy.ndarray, default=weights)
>>
    under pydantic 2. *)
Definition weights : loc := 0.
Definition weights_field : loc := 1.

Definition arrays : heap :=
  [ array [VInt 1; VInt 2];
    field_info {| d_annotation := ndarray; d_default := Default (VRef weights) |} ].

(** [Union[int, str]] *)
Definition int_or_str : value := VAlias Union [int_; str_].

End Examples.

(* ================================================================== *)
(** ** The re-exported names and what an operation touches             *)
(* ================================================================== *)

Module Reexports.

(** The helpers the module imports from pydantic under their own names. *)
Inductive helper : Type :=
| Get_args
| Is_union
| Get_origin
| Is_typeddict
| Is_literal_type
| Parse_date
| Parse_datetime.

(** The global a caller reads a helper from. *)
Definition binding (k : helper) : namespace -> value :=
  match k with
  | Get_args => get_args
  | Is_union => is_union
  | Get_origin => get_origin
  | Is_typeddict => is_typeddict
  | Is_literal_type => is_literal_type
  | Parse_date => parse_date
  | Parse_datetime => parse_datetime
  end.

Definition imported_name (k : helper) : string :=
  match k with
  | Get_args => "get_args"
  | Is_union => "is_union"
  | Get_origin => "get_origin"
  | Is_typeddict => "is_typeddict"
  | Is_literal_type => "is_literal_type"
  | Parse_date => "parse_date"
  | Parse_datetime => "parse_datetime"
  end.

(** The pydantic module of the [import] statement that binds the helper. *)
Definition imported_from (v2 : bool) (k : helper) : string :=
  match k with
  | Parse_date | Parse_datetime =>
      if v2 then "pydantic.v1.datetime_parse" else "pydantic.datetime_parse"
  | _ => if v2 then "pydantic.v1.typing" else "pydantic.typing"
  end.

End Reexports.

Module Touches.

(** The attribute and method names the bodies of the nine functions mention
    in the branch of one version. *)
Definition names_used (v2 : bool) : list string :=
  if v2 then
    ["model_validate"; "is_required"; "get_default"; "annotation";
     "model_config"; "model_fields"; "model_copy"; "model_dump_json";
     "model_dump"]
  else
    ["parse_obj"; "required"; "get_default"; "outer_type_"; "__config__";
     "__fields__"; "copy"; "json"; "dict"].

(** The names of one version that the other version does not use. *)
Definition only_in (v2 : bool) : list string :=
  filter (fun n => negb (existsb (String.eqb n) (names_used (negb v2))))
         (names_used v2).

(** Two runtimes answer alike for the names of a list. *)
Definition same_names (names : list string) (rt1 rt2 : Runtime) : Prop :=
  (forall o n h, In n names ->
     @rt_getattr rt1 o n h = @rt_getattr rt2 o n h) /\
  (forall o n args h, In n names ->
     @rt_call_method rt1 o n args h = @rt_call_method rt2 o n args h).

(** Two runtimes compare and truth-test alike. *)
Definition same_comparisons (rt1 rt2 : Runtime) : Prop :=
  (forall a b h, @rt_eq rt1 a b h = @rt_eq rt2 a b h) /\
  (forall v h, @rt_truth rt1 v h = @rt_truth rt2 v h).

(** Two runtimes give every object the same attributes and methods. *)
Definition same_objects (rt1 rt2 : Runtime) : Prop :=
  (forall o n h, @rt_getattr rt1 o n h = @rt_getattr rt2 o n h) /\
  (forall o n args h,
     @rt_call_method rt1 o n args h = @rt_call_method rt2 o n args h).

(** The one place with a comparison: line 93, reached under v2. *)
Definition compares (v2 : bool) (o : op) : bool :=
  match o with
  | Field_get_default _ => v2
  | _ => false
  end.

(** The runtime [rt] with the listed names removed from every object. *)
Definition without (names : list string) (rt : Runtime) : Runtime :=
  {| rt_getattr := fun o n =>
       if existsb (String.eqb n) names then raise (AttributeError n)
       else @rt_getattr rt o n;
     rt_call_method := fun o n args =>
       if existsb (String.eqb n) names then raise (AttributeError n)
       else @rt_call_method rt o n args;
     rt_call := @rt_call rt;
     rt_eq := @rt_eq rt;
     rt_truth := @rt_truth rt |}.

(** The runtime [rt] with objects that refuse [==] and [bool()]. *)
Definition incomparable (rt : Runtime) : Runtime :=
  {| rt_getattr := @rt_getattr rt;
     rt_call_method := @rt_call_method rt;
     rt_call := @rt_call rt;
     rt_eq := fun _ _ => raise (TypeError "unsupported operand for ==");
     rt_truth := fun _ => raise (TypeError "no truth value") |}.

(** A default that is a value of the language itself: [None], a boolean, a
    number, a string, a datetime, a tuple, a list or a dict.  The class of
    such a value defines no comparison with the sentinel. *)
Definition plain_default (v : value) : bool :=
  match v with
  | VRef _ | VGlobal _ _ | VAlias _ _ => false
  | _ => true
  end.

(** The store after
<<
    class Counter(BaseModel):
        count: int = 0
        label: str = ''
        done: bool = False
        tags: List[str] = []
>>
*)
Definition count : loc := 0.
Definition label : loc := 1.
Definition done : loc := 2.
Definition tags : loc := 3.

Definition counters (v2 : bool) : heap :=
  [ Pydantic.field_object v2
      {| Pydantic.d_annotation := Pydantic.int_;
         Pydantic.d_default := Pydantic.Default (VInt 0) |};
    Pydantic.field_object v2
      {| Pydantic.d_annotation := Pydantic.str_;
         Pydantic.d_default := Pydantic.Default (VStr EmptyString) |};
    Pydantic.field_object v2
      {| Pydantic.d_annotation := VGlobal "builtins" "bool";
         Pydantic.d_default := Pydantic.Default (VBool false) |};
    Pydantic.field_object v2
      {| Pydantic.d_annotation := VAlias (VGlobal "typing" "List") [Pydantic.str_];
         Pydantic.d_default := Pydantic.Default (VList []) |};
    Pydantic.model_class v2 "Counter"
      [("count", VRef count); ("label", VRef label); ("done", VRef done);
       ("tags", VRef tags)] ].

(** The store of [Examples.arrays], under pydantic 1. *)
Definition arrays_v1 : heap :=
  [ Pydantic.array [VInt 1; VInt 2];
    Pydantic.model_field
      {| Pydantic.d_annotation := Pydantic.ndarray;
         Pydantic.d_default := Pydantic.Default (VRef Examples.weights) |} ].

End Touches.

(* ================================================================== *)
(** ** The claims as they are worded                                   *)
(* ================================================================== *)

Module Stated.

(** "Normalizing an upstream no-default sentinel to an absence marker": the
    undefined sentinel of pydantic 2 becomes [None], every other value is
    left as it is.  pydantic 1 has no such sentinel to give. *)
Definition stated_normalization (v2 : bool) (o : op) (v : value) : value :=
  match o with
  | Field_get_default _ =>
      if v2 && is_global v "pydantic_core" "PydanticUndefined" then VNone
      else v
  | _ => v
  end.

(** "The result equals the result of directly invoking the upstream
    implementation selected by the detected version", with the stated
    normalization for [field_get_default]. *)
Definition returns_the_stated_result {rt : Runtime} (o : op) (st : state)
  : Prop :=
  exec o st
    = lift (v <- invoke (upstream (PYDANTIC_V2 (globals st)) o) ;;
            ret (stated_normalization (PYDANTIC_V2 (globals st)) o v)) st.

(** "True for a field declared without a default, false for a field
    declared with a default value": for the metadata object at [l] that the
    installed pydantic built from a declaration. *)
Definition required_iff_declared_without_default
           (v2 : bool) (st : state) (l : loc) : Prop :=
  forall d,
    nth_error (store st) l = Some (Pydantic.field_object v2 d) ->
    field_is_required (rt := Pydantic.runtime v2) (VRef l) st
      = (Ok (VBool (Pydantic.mandatory d)), st).

(** A declared default that is a value or an object of the program, not one
    of the markers of a library. *)
Definition ordinary_default (d : Pydantic.declaration) : bool :=
  match Pydantic.d_default d with
  | Pydantic.Default (VGlobal _ _) => false
  | _ => true
  end.

(** The store after
<<
    class Profile(BaseModel):
        name: str
        nickname: Optional[str]
>>
*)
Definition name : loc := 0.
Definition nickname : loc := 1.

Definition profiles (v2 : bool) : heap :=
  [ Pydantic.field_object v2
      {| Pydantic.d_annotation := Pydantic.str_;
         Pydantic.d_default := Pydantic.NoDefault |};
    Pydantic.field_object v2
      {| Pydantic.d_annotation :=
           VAlias Pydantic.Union [Pydantic.str_; VGlobal "builtins" "NoneType"];
         Pydantic.d_default := Pydantic.NoDefault |};
    Pydantic.model_class v2 "Profile"
      [("name", VRef name); ("nickname", VRef nickname)] ].

(** The store after
<<
    field = FieldInfo(annotation=object, default=unittest.mock.ANY)
>>
    under pydantic 2. *)
Definition ANY : value := VGlobal "unittest.mock" "ANY".
Definition wildcard_field : loc := 0.

Definition wildcards : heap :=
  [ Pydantic.field_info
      {| Pydantic.d_annotation := VGlobal "builtins" "object";
         Pydantic.d_default := Pydantic.Default ANY |} ].

End Stated.

(* ================================================================== *)
(** ** JSON-native values                                              *)
(* ================================================================== *)

(** The values JSON has a form of its own for: [None], booleans, integers,
    strings, lists and dicts of these.  Strings are of printable ASCII
    characters, which JSON text writes as they are apart from the quote and
    the backslash; the keys of a dict are distinct. *)
Module Native.

Definition printable (c : ascii) : bool :=
  Nat.leb 32 (nat_of_ascii c) && Nat.leb (nat_of_ascii c) 126.

Fixpoint text (s : string) : bool :=
  match s with
  | EmptyString => true
  | String c s' => printable c && text s'
  end.

Definition fresh_key (k : string) (l : list (string * value)) : bool :=
  negb (existsb (fun p => String.eqb k (fst p)) l).

Fixpoint native (v : value) : bool :=
  match v with
  | VNone | VBool _ | VInt _ => true
  | VStr s => text s
  | VList l =>
      (fix go (l : list value) : bool :=
         match l with
         | [] => true
         | x :: l' => native x && go l'
         end) l
  | VDict l =>
      (fix go (l : list (string * value)) : bool :=
         match l with
         | [] => true
         | (k, x) :: l' => text k && fresh_key k l' && native x && go l'
         end) l
  | _ => false
  end.

Fixpoint natives (l : list value) : bool :=
  match l with
  | [] => true
  | x :: l' => native x && natives l'
  end.

Fixpoint native_members (l : list (string * value)) : bool :=
  match l with
  | [] => true
  | (k, x) :: l' => text k && fresh_key k l' && native x && native_members l'
  end.

(** The text of the items of a list and of the members of a dict, as
    [Json.dumps] lays them out. *)
Fixpoint dumps_items (item_sep key_sep : string) (first : bool)
         (l : list value) : option string :=
  match l with
  | [] => Some EmptyString
  | x :: l' =>
      match Json.dumps item_sep key_sep x,
            dumps_items item_sep key_sep false l' with
      | Some a, Some b =>
          Some ((if first then EmptyString else item_sep) ++ a ++ b)
      | _, _ => None
      end
  end.

Fixpoint dumps_members (item_sep key_sep : string) (first : bool)
         (l : list (string * value)) : option string :=
  match l with
  | [] => Some EmptyString
  | (k, x) :: l' =>
      match Json.dumps item_sep key_sep x,
            dumps_members item_sep key_sep false l' with
      | Some a, Some b =>
          Some ((if first then EmptyString else item_sep) ++
                Json.quote k ++ key_sep ++ a ++ b)
      | _, _ => None
      end
  end.

(** [a == b] item by item, and member by member against a dict [ys]. *)
Fixpoint eqb_items (xs ys : list value) : bool :=
  match xs, ys with
  | [], [] => true
  | x :: xs', y :: ys' => value_eqb x y && eqb_items xs' ys'
  | _, _ => false
  end.

Fixpoint eqb_members (ys xs : list (string * value)) : bool :=
  match xs with
  | [] => true
  | (k, x) :: xs' =>
      match assoc k ys with
      | Some y => value_eqb x y && eqb_members ys xs'
      | None => false
      end
  end.

Fixpoint blanks (s : string) : bool :=
  match s with
  | EmptyString => true
  | String c s' => Json.is_ws c && blanks s'
  end.

(** What may follow the text of a value: not a digit, which would run into
    a number. *)
Definition no_digit_ahead (s : string) : Prop :=
  match s with
  | EmptyString => True
  | String c _ => Json.digit c = None
  end.

(** The characters a value's text can begin with. *)
Definition opens_a_value (c : ascii) : bool :=
  (c =? "n")%char || (c =? "t")%char || (c =? "f")%char ||
  (c =? Json.dquote)%char || (c =? "-")%char || (c =? "[")%char ||
  (c =? "{")%char ||
  match Json.digit c with Some _ => true | None => false end.

(** The text of [d], written with the separators [","] and [":"] followed
    by the blanks [w1] and [w2], opens as a value does and is read back as
    [d] by a reader with fuel for its length, whatever blanks precede it. *)
Definition reads_back (w1 w2 : string) (d : value) : Prop :=
  native d = true ->
  forall t,
    Json.dumps (String "," w1) (String ":" w2) d = Some t ->
    (exists c t', t = String c t' /\ opens_a_value c = true) /\
    forall fuel w rest,
      blanks w = true -> String.length t <= fuel -> no_digit_ahead rest ->
      Json.read_value fuel (w ++ t ++ rest) = Some (d, rest).

End Native.

(* ================================================================== *)
(** ** Facts about the embedding                                       *)
(* ================================================================== *)

Ltac unfold_facade :=
  unfold exec, parse_obj, field_is_required, field_get_default,
    field_outer_type, get_model_config, get_model_fields, model_copy,
    model_json, model_dump, call_global, direct, normalize, equals_undefined,
    invoke, upstream, lift, global, bind, ret, raise, cast, import_from,
    Pydantic.PydanticUndefined in *.

(** Case analysis on the outcome of the next call into the runtime. *)
Ltac step_call :=
  match goal with
  | |- context [py_call_method ?a ?b ?c ?h] =>
      destruct (py_call_method a b c h) as [[?|?] ?] eqn:?; simpl
  | |- context [py_getattr ?a ?b ?h] =>
      destruct (py_getattr a b h) as [[?|?] ?] eqn:?; simpl
  | |- context [py_eq ?a ?b ?h] =>
      destruct (py_eq a b h) as [[?|?] ?] eqn:?; simpl
  | |- context [py_truth ?a ?h] =>
      destruct (py_truth a h) as [[[|]|?] ?] eqn:?; simpl
  | |- context [py_call ?a ?b ?h] =>
      destruct (py_call a b h) as [[?|?] ?] eqn:?; simpl
  end.

Section Facts.
Context {rt : Runtime}.

Lemma exec_direct (o : op) (st : state) :
  exec o st = lift (direct (PYDANTIC_V2 (globals st)) o) st.
Proof.
  destruct st as [g h]; destruct o; unfold_facade; simpl;
    destruct (PYDANTIC_V2 g) eqn:E; simpl;
    repeat (step_call; rewrite ?E; simpl); reflexivity.
Qed.

Lemma exec_globals (o : op) (st : state) :
  globals (snd (exec o st)) = globals st.
Proof.
  rewrite exec_direct. unfold lift.
  destruct (direct _ o (store st)); reflexivity.
Qed.

Lemma run_invariant (os : list op) :
  forall st,
    Forall (fun p => globals (fst p) = globals st) (fst (run os st)) /\
    globals (snd (run os st)) = globals st /\
    map snd (fst (run os st))
      = fst (run_direct (PYDANTIC_V2 (globals st)) os (store st)) /\
    store (snd (run os st))
      = snd (run_direct (PYDANTIC_V2 (globals st)) os (store st)).
Proof.
  induction os as [|o os IH]; intro st; simpl.
  - repeat split; constructor.
  - rewrite exec_direct. unfold lift.
    destruct (direct (PYDANTIC_V2 (globals st)) o (store st)) as [r h'].
    specialize (IH {| globals := globals st; store := h' |}).
    simpl in IH.
    destruct (run os {| globals := globals st; store := h' |}) as [rs st''].
    destruct (run_direct (PYDANTIC_V2 (globals st)) os h') as [rs' h''].
    simpl in *. destruct IH as (IH1 & IH2 & IH3 & IH4).
    repeat split; try assumption.
    + constructor; [reflexivity | assumption].
    + f_equal. assumption.
Qed.

(** Apart from [field_get_default] under v2, an operation is the upstream
    call and nothing else. *)
Lemma direct_plain (v2 : bool) (o : op) (h : heap) :
  match o with
  | Field_get_default _ =>
      if v2 then True else direct v2 o h = invoke (upstream v2 o) h
  | _ => direct v2 o h = invoke (upstream v2 o) h
  end.
Proof.
  destruct o; try destruct v2; try exact I;
    unfold direct, normalize, bind, ret;
    match goal with
    | |- context [invoke ?t h] => destruct (invoke t h) as [[?|?] ?]
    end; reflexivity.
Qed.

Lemma pass_through_plain (o : op) (st : state) :
  direct (PYDANTIC_V2 (globals st)) o (store st)
    = invoke (upstream (PYDANTIC_V2 (globals st)) o) (store st) ->
  errors_pass_through o st.
Proof.
  intros H e. unfold raises. rewrite exec_direct. unfold lift.
  rewrite H.
  destruct (invoke _ (store st)) as [r h']. reflexivity.
Qed.

(** X4.  Under v2 the sentinel never comes out of [field_get_default],
    whatever the field and whatever the objects do. *)
Lemma v2_never_returns_the_sentinel (field : value) (st : state) :
  PYDANTIC_V2 (globals st) = true ->
  fst (field_get_default field st) <> Ok Pydantic.PydanticUndefined.
Proof.
  intro E. destruct st as [g h]; simpl in E.
  unfold_facade; simpl.
  step_call; rewrite ?E; simpl; try discriminate.
  repeat step_call; try discriminate.
  intro H. injection H as ->.
  match goal with
  | H1 : py_eq _ _ _ = (Ok ?c, _), H2 : py_truth ?c _ = (Ok false, _) |- _ =>
      injection H1 as <- <-; discriminate H2
  end.
Qed.

(** Under v2 a default whose class defines no [__eq__] of its own is compared
    with the sentinel by identity. *)
Lemma equals_undefined_builtin (v : value) (h : heap) :
  own_eq v = false ->
  equals_undefined v h
    = (Ok (is_global v "pydantic_core" "PydanticUndefined"), h).
Proof.
  intro O. unfold equals_undefined, bind, py_eq. rewrite O.
  destruct v; try discriminate; reflexivity.
Qed.
End Facts.

(** Facts about the installed library: it keeps the promises the claims
    rely on. *)
Section LibraryFacts.

Example pydantic_2_is_detected : startswith "2.5.3" "2." = true.
Proof. reflexivity. Qed.

Example pydantic_1_is_not : startswith "1.10.13" "2." = false.
Proof. reflexivity. Qed.

Example a_major_version_20_is_not : startswith "20.1" "2." = false.
Proof. reflexivity. Qed.

Example parse_obj_rejects_a_missing_field :
  fst (parse_obj (rt := Pydantic.runtime false) (VRef Examples.Page)
         (VDict [("size", VInt 1)]) (load "1.10.13" (Examples.library false)))
  = Raise (ValidationError "title").
Proof. reflexivity. Qed.

Example parse_obj_fills_the_defaults :
  parse_obj (rt := Pydantic.runtime true) (VRef Examples.Page)
    (VDict [("title", VStr "index")]) (load "2.5.3" (Examples.library true))
  = (Ok (VRef 9),
     {| globals := globals (load "2.5.3" (Examples.library true));
        store := (store (load "2.5.3" (Examples.library true)) ++
                  [Pydantic.instance Examples.Page
                     [("title", VStr "index"); ("size", VInt 10);
                      ("note", VNone)]])%list |}).
Proof. reflexivity. Qed.

Example model_dump_walks_nested_models :
  fst (model_dump (rt := Pydantic.runtime true) (VRef Examples.book)
         (load "2.5.3" (Examples.library true)))
  = Ok (VDict [("cover", VDict [("title", VStr "home"); ("size", VInt 3);
                                ("note", VNone)])]).
Proof. reflexivity. Qed.

Example get_model_fields_keeps_the_declaration_order :
  fst (get_model_fields (rt := Pydantic.runtime false) (VRef Examples.Page)
         (load "1.10.13" (Examples.library false)))
  = Ok (VDict [("title", VRef Examples.title); ("size", VRef Examples.size);
               ("note", VRef Examples.note)]).
Proof. reflexivity. Qed.

(** The v2 names do not exist in pydantic 1: a call that took the v2 branch
    there would fail. *)
Example v2_names_are_missing_in_pydantic_1 :
  fst (invoke (rt := Pydantic.runtime false)
         (upstream true (Model_dump (VRef Examples.home)))
         (Examples.library false))
  = Raise (AttributeError "model_dump").
Proof. reflexivity. Qed.

Lemma fst_lift {A} (m : M A) (st : state) : fst (lift m st) = fst (m (store st)).
Proof. unfold lift. destruct (m (store st)). reflexivity. Qed.

Lemma alloc_is_shallow_copy (h : heap) (m : loc) (o : obj) :
  nth_error h m = Some o ->
  shallow_copy_of h m (h ++ [o])%list (List.length h).
Proof.
  intro H. repeat split.
  - apply nth_error_None. lia.
  - exists o. split; [exact H|].
    rewrite nth_error_app2 by lia. rewrite Nat.sub_diag. reflexivity.
  - intros l Hl.
    destruct (Nat.lt_ge_cases l (List.length h)) as [Hlt|Hge].
    + apply nth_error_app1. exact Hlt.
    + assert (E1 : nth_error h l = None) by (apply nth_error_None; lia).
      rewrite E1. apply nth_error_None. rewrite length_app. simpl. lia.
Qed.

Lemma library_copies_shallowly
      (v2 : bool) (h : heap) (m cls : loc) (values : list (string * value)) :
  nth_error h m = Some (Pydantic.instance cls values) ->
  copies_shallowly (rt := Pydantic.runtime v2) v2 m h.
Proof.
  intro H.
  exists (List.length h), (h ++ [Pydantic.instance cls values])%list.
  split; [| apply alloc_is_shallow_copy; exact H].
  unfold py_call_method. simpl.
  unfold Pydantic.ref_call_method, Pydantic.lookup, bind. rewrite H. simpl.
  destruct v2; simpl;
    unfold Pydantic.model_copy, Pydantic.lookup, Pydantic.alloc, bind;
    rewrite H; reflexivity.
Qed.

(** The metadata object pydantic builds for a declared field keeps the
    promise [describes] states. *)
Lemma library_describes
      (v2 : bool) (h : heap) (l : loc) (d : Pydantic.declaration) :
  nth_error h l = Some (Pydantic.field_object v2 d) ->
  match Pydantic.d_default d with
  | Pydantic.NoDefault => true
  | Pydantic.Default v => Pydantic.immutable v
  end = true ->
  describes (rt := Pydantic.runtime v2) v2 (VRef l)
    (Pydantic.reported_required v2 d) (Pydantic.declared_default v2 d) h.
Proof.
  intros H I.
  unfold describes, py_call_method, py_getattr, Pydantic.reported_required,
    Pydantic.mandatory, Pydantic.declared_default.
  destruct d as [ann dflt]. cbn [Pydantic.d_default Pydantic.d_annotation] in *.
  destruct (Pydantic.admits_none ann) eqn:A;
    destruct v2; cbn [rt_call_method rt_getattr Pydantic.runtime];
    unfold Pydantic.ref_call_method, Pydantic.ref_getattr, Pydantic.lookup,
      bind; rewrite H;
    unfold Pydantic.field_object, Pydantic.field_info, Pydantic.model_field,
      Pydantic.reported_required, Pydantic.mandatory;
    cbn [Pydantic.d_default Pydantic.d_annotation]; rewrite ?A;
    (destruct dflt as [|v]; [split; reflexivity |
       destruct v; try discriminate; split; reflexivity]).
Qed.

Lemma library_typing_contract (v2 : bool) :
  typing_contract (rt := Pydantic.runtime v2)
    (if v2 then "pydantic.v1.typing" else "pydantic.typing").
Proof.
  intros alts h. destruct v2; repeat split.
Qed.
End LibraryFacts.

(* ================================================================== *)
(** ** The claims                                                      *)
(* ================================================================== *)

(** C1, as the code has it.  Every operation of the façade returns what the
    upstream implementation selected by the detected version returns, and
    leaves the store that call leaves: under the v2 flag the v2 method or
    attribute, otherwise the v1 one.  Nothing is done to the result, except
    in [field_get_default] under v2, which compares the default with the
    undefined sentinel by [==]: when the default is an object, of the store
    or of a library, the result is [None] if the comparison is true, the
    default if it is false, and the error of the comparison if it raises;
    for any other default this is the stated normalization. *)
Theorem facade_returns_upstream_result_up_to_comparison
        (rt : Runtime) (o : op) (st : state) :
  exec o st
    = lift (v <- invoke (upstream (PYDANTIC_V2 (globals st)) o) ;;
            normalize (PYDANTIC_V2 (globals st)) o v) st /\
  forall (v : value) (h : heap),
    normalize (PYDANTIC_V2 (globals st)) o v h =
      if Touches.compares (PYDANTIC_V2 (globals st)) o && own_eq v
      then match equals_undefined v h with
           | (Ok b, h') => (Ok (if b then VNone else v), h')
           | (Raise e, h') => (Raise e, h')
           end
      else (Ok (Stated.stated_normalization (PYDANTIC_V2 (globals st)) o v), h).
Proof.
  split; [apply exec_direct|].
  intros v h.
  destruct o; destruct (PYDANTIC_V2 (globals st)); try reflexivity.
  cbn [Touches.compares andb normalize Stated.stated_normalization].
  unfold bind, ret.
  destruct (own_eq v) eqn:O.
  - destruct (equals_undefined v h) as [[b|e] h']; reflexivity.
  - rewrite (equals_undefined_builtin v h O). reflexivity.
Qed.

(** C1 as stated fails: under v2, for a field whose default is
    [unittest.mock.ANY], [get_default()] returns the default, which is not
    the sentinel, and [field_get_default] returns [None], because
    [ANY == PydanticUndefined] is true. *)
Lemma wildcard_default_is_taken_for_the_sentinel :
  ~ Stated.returns_the_stated_result (rt := Pydantic.runtime true)
      (Field_get_default (VRef Stated.wildcard_field))
      (load "2.5.3" Stated.wildcards).
Proof.
  intro H. vm_compute in H. discriminate.
Qed.






(** C4, as the code has it.  Every operation other than [field_get_default]
    raises exactly when the delegated upstream call raises, and raises that
    error; so does [field_get_default] under v1.  Under v2,
    [field_get_default] raises exactly when [get_default()] raises or when
    comparing the default it returned with the undefined sentinel raises,
    and raises that error. *)
Theorem errors_come_from_upstream_or_comparison
        (rt : Runtime) (o : op) (st : state) :
  match o with
  | Field_get_default field =>
      if PYDANTIC_V2 (globals st) then
        forall e,
          raises (exec o st) e <->
          raises (py_call_method field "get_default" [] (store st)) e \/
          exists v h',
            py_call_method field "get_default" [] (store st) = (Ok v, h') /\
            raises (equals_undefined v h') e
      else errors_pass_through o st
  | _ => errors_pass_through o st
  end.
Proof.
  destruct o as [model v|field|field|field|model|model|model|model|model];
    try (match goal with
         | |- errors_pass_through ?o _ =>
             apply pass_through_plain;
             exact (direct_plain (PYDANTIC_V2 (globals st)) o (store st))
         end).
  destruct (PYDANTIC_V2 (globals st)) eqn:E.
  - intro e. unfold raises. rewrite exec_direct, E.
    unfold lift, direct, normalize, invoke, upstream, bind, ret.
    destruct (py_call_method field "get_default" [] (store st))
      as [[v|e'] h']; simpl.
    + destruct (equals_undefined v h') as [[b|e''] h''] eqn:Q; simpl.
      * split; [discriminate|].
        intros [H|(v0 & h0 & H & R)]; [discriminate|].
        injection H as <- <-. rewrite Q in R. discriminate.
      * split.
        -- intro H. right. exists v, h'.
           split; [reflexivity | rewrite Q; injection H as ->; reflexivity].
        -- intros [H|(v0 & h0 & H & R)]; [discriminate|].
           injection H as <- <-. rewrite Q in R.
           injection R as ->. reflexivity.
    + split; [auto|].
      intros [H|(v0 & h0 & H & _)]; [exact H | discriminate].
  - apply pass_through_plain. rewrite E.
    exact (direct_plain false (Field_get_default field) (store st)).
Qed.

(** C4 as stated fails: under v2, for a field whose default is a numeric
    array, [get_default()] returns normally and [field_get_default] raises
    the [ValueError] of the array's truth value. *)
Lemma array_default_raises_in_the_facade :
  ~ errors_pass_through (rt := Pydantic.runtime true)
      (Field_get_default (VRef Examples.weights_field))
      (load "2.5.3" Examples.arrays).
Proof.
  intro H.
  destruct (H Pydantic.ambiguous_truth_value) as [H1 _].
  assert (R : raises (exec (rt := Pydantic.runtime true)
                        (Field_get_default (VRef Examples.weights_field))
                        (load "2.5.3" Examples.arrays))
                     Pydantic.ambiguous_truth_value) by reflexivity.
  apply H1 in R. vm_compute in R. discriminate.
Qed.

(** C5.  The flag is computed once, from [pydantic.VERSION], when the module
    is loaded, and the names re-exported from pydantic are bound by it.  No
    call into the module changes its globals: in every state a process
    reaches they are the ones [load] made, and every call of the process
    returns what the upstream implementation of that one version returns. *)
Theorem flag_is_fixed_at_load
        (rt : Runtime) (VERSION : string) (h : heap) (os : list op) :
  let st0 := load VERSION h in
  let flag := startswith VERSION "2." in
  PYDANTIC_V2 (globals st0) = flag /\
  is_union (globals st0)
    = VGlobal (if flag then "pydantic.v1.typing" else "pydantic.typing")
              "is_union" /\
  Forall (fun p => globals (fst p) = globals st0) (fst (run os st0)) /\
  globals (snd (run os st0)) = globals st0 /\
  map snd (fst (run os st0)) = fst (run_direct flag os (store st0)) /\
  store (snd (run os st0)) = snd (run_direct flag os (store st0)).
Proof.
  intros st0 flag.
  split; [reflexivity|].
  split; [subst st0 flag; simpl; destruct (startswith VERSION "2."); reflexivity|].
  exact (run_invariant os st0).
Qed.





(** C8.  For a model instance [m] that pydantic copies shallowly,
    [model_copy(m)] returns a new instance with the class and the field
    values of [m], nested objects shared; [m] and every other object of the
    store are left as they were, the globals of the module too, and the
    store is the one the delegated copy call leaves. *)
Theorem model_copy_is_a_shallow_copy (rt : Runtime) (st : state) (m : loc) :
  copies_shallowly (PYDANTIC_V2 (globals st)) m (store st) ->
  exists c st',
    model_copy (VRef m) st = (Ok (VRef c), st') /\
    c <> m /\
    shallow_copy_of (store st) m (store st') c /\
    nth_error (store st') m = nth_error (store st) m /\
    globals st' = globals st /\
    store st'
      = snd (invoke (upstream (PYDANTIC_V2 (globals st)) (Model_copy (VRef m)))
                    (store st)).
Proof.
  intros (c & h' & Hcall & Hs).
  exists c, {| globals := globals st; store := h' |}.
  assert (Hne : c <> m).
  { destruct Hs as (Hnew & (o & Hm & _) & _).
    intro E. subst c. rewrite Hm in Hnew. discriminate. }
  split.
  - change (model_copy (VRef m) st) with (exec (Model_copy (VRef m)) st).
    rewrite exec_direct. unfold lift.
    rewrite (direct_plain (PYDANTIC_V2 (globals st)) (Model_copy (VRef m))
               (store st)).
    simpl. destruct (PYDANTIC_V2 (globals st)); rewrite Hcall; reflexivity.
  - split; [exact Hne|]. split; [exact Hs|]. split.
    + destruct Hs as (_ & _ & Hframe). apply Hframe. auto.
    + split; [reflexivity|]. simpl.
      destruct (PYDANTIC_V2 (globals st)); rewrite Hcall; reflexivity.
Qed.

Lemma model_copy_is_a_shallow_copy_witness :
  copies_shallowly (rt := Pydantic.runtime true) true Examples.book
    (store (load "2.5.3" (Examples.library true))) /\
  exists c st',
    model_copy (rt := Pydantic.runtime true) (VRef Examples.book)
      (load "2.5.3" (Examples.library true)) = (Ok (VRef c), st') /\
    c <> Examples.book /\
    shallow_copy_of (store (load "2.5.3" (Examples.library true)))
      Examples.book (store st') c /\
    nth_error (store st') Examples.book
      = nth_error (store (load "2.5.3" (Examples.library true))) Examples.book /\
    globals st' = globals (load "2.5.3" (Examples.library true)) /\
    store st'
      = snd (invoke (rt := Pydantic.runtime true)
               (upstream true (Model_copy (VRef Examples.book)))
               (store (load "2.5.3" (Examples.library true)))).
Proof.
  assert (D : copies_shallowly (rt := Pydantic.runtime true) true Examples.book
                (store (load "2.5.3" (Examples.library true)))).
  { apply (library_copies_shallowly true _ Examples.book Examples.Book
             [("cover", VRef Examples.home)]).
    reflexivity. }
  split; [exact D|].
  exact (model_copy_is_a_shallow_copy (Pydantic.runtime true)
           (load "2.5.3" (Examples.library true)) Examples.book D).
Defined.

(** C9.  When the detected version is not v2 the module binds [ConfigDict]
    to [None]: the binding stays [None] through every call into the module,
    and calling it, in any state with these globals, raises a [TypeError]. *)
Theorem ConfigDict_is_None_under_v1
        (rt : Runtime) (VERSION : string) (h : heap) :
  startswith VERSION "2." = false ->
  ConfigDict (globals (load VERSION h)) = VNone /\
  (forall os, ConfigDict (globals (snd (run os (load VERSION h)))) = VNone) /\
  (forall args st,
      globals st = globals (load VERSION h) ->
      call_global ConfigDict args st
        = (Raise (TypeError "'NoneType' object is not callable"), st)).
Proof.
  intro E.
  assert (N : ConfigDict (globals (load VERSION h)) = VNone)
    by (unfold load; simpl; rewrite E; reflexivity).
  split; [exact N|]. split.
  - intro os.
    destruct (run_invariant os (load VERSION h)) as (_ & G & _).
    rewrite G. exact N.
  - intros args [g s] G. change (g = globals (load VERSION h)) in G.
    unfold call_global, global, lift, bind. cbn [globals store].
    rewrite G, N. reflexivity.
Qed.

Lemma ConfigDict_is_None_under_v1_witness :
  startswith "1.10.13" "2." = false /\
  ConfigDict (globals (load "1.10.13" [])) = VNone /\
  call_global (rt := Pydantic.runtime false) ConfigDict []
    (load "1.10.13" [])
  = (Raise (TypeError "'NoneType' object is not callable"), load "1.10.13" []).
Proof.
  split; [reflexivity|].
  destruct (ConfigDict_is_None_under_v1 (Pydantic.runtime false) "1.10.13" []
              eq_refl) as (N & _ & C).
  split; [exact N|].
  exact (C [] (load "1.10.13" []) eq_refl).
Defined.

(** C10.  Under v2, [field_get_default] returns [None] for a field without
    a default, whose default is the undefined sentinel, and for a field
    whose declared default is [None]: the two results are the same. *)
Theorem None_default_and_no_default_read_alike
        (rt : Runtime) (st : state) (unset explicit default : value) :
  PYDANTIC_V2 (globals st) = true ->
  describes true unset true default (store st) ->
  describes true explicit false VNone (store st) ->
  field_get_default unset st = (Ok VNone, st) /\
  field_get_default explicit st = (Ok VNone, st).
Proof.
  intros E [_ H1] [_ H2].
  destruct st as [g h]; simpl in *.
  split; unfold_facade; simpl; [rewrite H1 | rewrite H2];
    simpl; rewrite E; reflexivity.
Qed.

Lemma None_default_and_no_default_read_alike_witness :
  (PYDANTIC_V2 (globals (load "2.5.3" (Examples.library true))) = true /\
   describes (rt := Pydantic.runtime true) true (VRef Examples.title) true VNone
     (store (load "2.5.3" (Examples.library true))) /\
   describes (rt := Pydantic.runtime true) true (VRef Examples.note) false VNone
     (store (load "2.5.3" (Examples.library true)))) /\
  field_get_default (rt := Pydantic.runtime true) (VRef Examples.title)
    (load "2.5.3" (Examples.library true))
  = (Ok VNone, load "2.5.3" (Examples.library true)) /\
  field_get_default (rt := Pydantic.runtime true) (VRef Examples.note)
    (load "2.5.3" (Examples.library true))
  = (Ok VNone, load "2.5.3" (Examples.library true)).
Proof.
  assert (D1 : describes (rt := Pydantic.runtime true) true
                 (VRef Examples.title) true VNone
                 (store (load "2.5.3" (Examples.library true))))
    by (split; reflexivity).
  assert (D2 : describes (rt := Pydantic.runtime true) true
                 (VRef Examples.note) false VNone
                 (store (load "2.5.3" (Examples.library true))))
    by (split; reflexivity).
  split; [split; [reflexivity | split; [exact D1 | exact D2]]|].
  exact (None_default_and_no_default_read_alike (Pydantic.runtime true)
           (load "2.5.3" (Examples.library true))
           (VRef Examples.title) (VRef Examples.note) VNone eq_refl D1 D2).
Defined.

(* ================================================================== *)
(** ** Further properties of the module                                *)
(* ================================================================== *)

Lemma prefix_app (p s : string) :
  String.prefix p s = true <-> exists r, s = p ++ r.
Proof.
  revert s. induction p as [|a p IH]; intro s.
  - split; [intros _; exists s; reflexivity | intros _; destruct s; reflexivity].
  - destruct s as [|b s]; simpl.
    + split; [discriminate | intros [r H]; discriminate].
    + destruct (ascii_dec a b) as [->|N].
      * rewrite IH. split; intros [r H]; exists r.
        -- rewrite H. reflexivity.
        -- simpl in H. congruence.
      * split; [discriminate|].
        intros [r H]. simpl in H. congruence.
Qed.

Section Agreement.
Variables rt1 rt2 : Runtime.

Lemma equals_undefined_agrees :
  Touches.same_comparisons rt1 rt2 ->
  forall v h, @equals_undefined rt1 v h = @equals_undefined rt2 v h.
Proof.
  intros [Heq Htruth] v h.
  unfold equals_undefined, bind, py_eq.
  destruct (own_eq v); [|reflexivity].
  rewrite Heq.
  destruct (@rt_eq rt2 v Pydantic.PydanticUndefined h) as [[c|e] h'];
    [|reflexivity].
  destruct c; try reflexivity; apply Htruth.
Qed.

Lemma invoke_agrees (v2 : bool) (o : op) (h : heap) :
  Touches.same_names (Touches.names_used v2) rt1 rt2 ->
  @invoke rt1 (upstream v2 o) h = @invoke rt2 (upstream v2 o) h.
Proof.
  intros [Hattr Hcall].
  destruct o; destruct v2; simpl;
    unfold py_call_method, py_getattr;
    (apply Hattr || apply Hcall); simpl; tauto.
Qed.

Lemma direct_agrees (v2 : bool) (o : op) (h : heap) :
  Touches.same_names (Touches.names_used v2) rt1 rt2 ->
  (Touches.compares v2 o = true -> Touches.same_comparisons rt1 rt2) ->
  @direct rt1 v2 o h = @direct rt2 v2 o h.
Proof.
  intros Hn Hc. unfold direct, bind.
  rewrite (invoke_agrees v2 o h Hn).
  destruct (@invoke rt2 (upstream v2 o) h) as [[v|e] h']; [|reflexivity].
  destruct o; try reflexivity.
  destruct v2; [|reflexivity].
  unfold normalize, bind.
  rewrite (equals_undefined_agrees (Hc eq_refl)). reflexivity.
Qed.

Lemma exec_agrees (o : op) (st : state) :
  Touches.same_names (Touches.names_used (PYDANTIC_V2 (globals st))) rt1 rt2 ->
  (Touches.compares (PYDANTIC_V2 (globals st)) o = true ->
   Touches.same_comparisons rt1 rt2) ->
  @exec rt1 o st = @exec rt2 o st.
Proof.
  intros Hn Hc.
  rewrite (@exec_direct rt1), (@exec_direct rt2). unfold lift.
  rewrite (direct_agrees _ o (store st) Hn Hc). reflexivity.
Qed.
End Agreement.

(** X1.  The module takes the v2 branches exactly when [pydantic.VERSION]
    begins with the two characters "2.", in every state a process reaches:
    a version such as "20.1", "3.0" or "2" is handled as version one. *)
Theorem v2_exactly_when_VERSION_begins_with_2_dot
        (rt : Runtime) (VERSION : string) (h : heap) (os : list op) :
  PYDANTIC_V2 (globals (snd (run os (load VERSION h)))) = true <->
  exists rest, VERSION = "2." ++ rest.
Proof.
  destruct (run_invariant os (load VERSION h)) as (_ & G & _).
  rewrite G. unfold load, startswith. cbn [globals PYDANTIC_V2].
  apply prefix_app.
Qed.

(** X2.  In every state a process reaches, each of the seven helper names is
    bound to the pydantic function of the same name, of the v1 interface in
    both cases ([pydantic.v1.*] under v2, [pydantic.*] otherwise), and a
    call through the module is that function's call: same result, same
    store, nothing added. *)
Theorem helpers_are_the_functions_of_pydantic
        (rt : Runtime) (VERSION : string) (h : heap) (os : list op)
        (k : Reexports.helper) (args : list value) :
  Reexports.binding k (globals (snd (run os (load VERSION h))))
    = VGlobal (Reexports.imported_from (startswith VERSION "2.") k)
              (Reexports.imported_name k) /\
  call_global (Reexports.binding k) args (snd (run os (load VERSION h)))
    = lift (rt_call
              (VGlobal (Reexports.imported_from (startswith VERSION "2.") k)
                       (Reexports.imported_name k)) args)
           (snd (run os (load VERSION h))).
Proof.
  destruct (run_invariant os (load VERSION h)) as (_ & G & _).
  assert (B : Reexports.binding k (globals (snd (run os (load VERSION h))))
              = VGlobal (Reexports.imported_from (startswith VERSION "2.") k)
                        (Reexports.imported_name k)).
  { rewrite G. unfold load. cbn [globals].
    destruct k; destruct (startswith VERSION "2."); reflexivity. }
  split; [exact B|].
  unfold call_global, global, bind. rewrite B. reflexivity.
Qed.

(** X3.  In every state a process reaches, [ConfigDict] is pydantic's
    [ConfigDict] when the flag is set and [None] when it is not; a call
    through the module is pydantic's call in the first case and a
    [TypeError] that leaves the state alone in the second. *)
Theorem ConfigDict_follows_the_flag
        (rt : Runtime) (VERSION : string) (h : heap) (os : list op)
        (args : list value) :
  ConfigDict (globals (snd (run os (load VERSION h))))
    = (if PYDANTIC_V2 (globals (snd (run os (load VERSION h))))
       then VGlobal "pydantic" "ConfigDict" else VNone) /\
  call_global ConfigDict args (snd (run os (load VERSION h)))
    = (if PYDANTIC_V2 (globals (snd (run os (load VERSION h))))
       then lift (rt_call (VGlobal "pydantic" "ConfigDict") args)
                 (snd (run os (load VERSION h)))
       else (Raise (TypeError "'NoneType' object is not callable"),
             snd (run os (load VERSION h)))).
Proof.
  destruct (run_invariant os (load VERSION h)) as (_ & G & _).
  assert (B : ConfigDict (globals (snd (run os (load VERSION h))))
              = (if PYDANTIC_V2 (globals (snd (run os (load VERSION h))))
                 then VGlobal "pydantic" "ConfigDict" else VNone)).
  { rewrite G. unfold load. cbn [globals ConfigDict PYDANTIC_V2].
    destruct (startswith VERSION "2."); reflexivity. }
  split; [exact B|].
  unfold call_global, global, bind. rewrite B.
  destruct (PYDANTIC_V2 (globals (snd (run os (load VERSION h)))));
    [reflexivity|].
  destruct (snd (run os (load VERSION h))); reflexivity.
Qed.

Lemma v2_never_returns_the_sentinel_witness :
  PYDANTIC_V2 (globals (load "2.5.3" (Examples.library true))) = true /\
  fst (field_get_default (rt := Pydantic.runtime true) (VRef Examples.title)
         (load "2.5.3" (Examples.library true)))
  <> Ok Pydantic.PydanticUndefined.
Proof.
  split; [reflexivity|].
  exact (v2_never_returns_the_sentinel (rt := Pydantic.runtime true)
           (VRef Examples.title) (load "2.5.3" (Examples.library true))
           eq_refl).
Defined.

(** X5.  A default that is a value of the language itself ([None], a
    boolean, a number, a string, a datetime, a tuple, a list or a dict) is
    returned as [get_default()] gave it, under either version: the test of
    line 93 is an equality with the sentinel, so [0], [False], the empty
    string and empty containers are not taken for a missing default. *)
Theorem plain_defaults_are_returned_unchanged
        (rt : Runtime) (st : state) (field v : value) (h' : heap) :
  py_call_method field "get_default" [] (store st) = (Ok v, h') ->
  Touches.plain_default v = true ->
  field_get_default field st
    = (Ok v, {| globals := globals st; store := h' |}).
Proof.
  intros H P.
  change (field_get_default field st) with (exec (Field_get_default field) st).
  rewrite exec_direct. unfold lift, direct, bind. simpl invoke. rewrite H.
  destruct (PYDANTIC_V2 (globals st)); [|reflexivity].
  unfold normalize, bind, ret.
  rewrite (equals_undefined_builtin v h')
    by (destruct v; try discriminate; reflexivity).
  destruct v; try discriminate; reflexivity.
Qed.

Lemma plain_defaults_are_returned_unchanged_witness :
  (py_call_method (rt := Pydantic.runtime true) (VRef Touches.count) "get_default" []
     (store (load "2.5.3" (Touches.counters true)))
   = (Ok (VInt 0), store (load "2.5.3" (Touches.counters true))) /\
   Touches.plain_default (VInt 0) = true) /\
  field_get_default (rt := Pydantic.runtime true) (VRef Touches.count)
    (load "2.5.3" (Touches.counters true))
  = (Ok (VInt 0), load "2.5.3" (Touches.counters true)).
Proof.
  split; [split; reflexivity|].
  exact (plain_defaults_are_returned_unchanged (Pydantic.runtime true)
           (load "2.5.3" (Touches.counters true)) (VRef Touches.count)
           (VInt 0) (store (load "2.5.3" (Touches.counters true)))
           eq_refl eq_refl).
Defined.

(** X6.  A process touches only the attribute and method names of the
    version it detected, and calls no free function: two runtimes that
    answer alike for those names, and compare alike, give the same results
    and the same states, whatever they do for every other name, the names
    of the other version included. *)
Theorem only_the_names_of_the_detected_version_are_touched
        (rt1 rt2 : Runtime) (os : list op) (st : state) :
  Touches.same_names (Touches.names_used (PYDANTIC_V2 (globals st))) rt1 rt2 ->
  Touches.same_comparisons rt1 rt2 ->
  @run rt1 os st = @run rt2 os st.
Proof.
  revert st. induction os as [|o os IH]; intros st Hn Hc; [reflexivity|].
  simpl. rewrite (exec_agrees rt1 rt2 o st Hn (fun _ => Hc)).
  pose proof (@exec_globals rt2 o st) as G.
  destruct (@exec rt2 o st) as [r st']. simpl in G.
  rewrite IH; [reflexivity | rewrite G; exact Hn | exact Hc].
Qed.

Lemma only_the_names_of_the_detected_version_are_touched_witness :
  (Touches.same_names
     (Touches.names_used
        (PYDANTIC_V2 (globals (load "2.5.3" (Examples.library true)))))
     (Pydantic.runtime true)
     (Touches.without (Touches.only_in false) (Pydantic.runtime true)) /\
   Touches.same_comparisons
     (Pydantic.runtime true)
     (Touches.without (Touches.only_in false) (Pydantic.runtime true))) /\
  @run (Pydantic.runtime true)
       [Get_model_fields (VRef Examples.Page);
        Field_is_required (VRef Examples.title);
        Field_get_default (VRef Examples.size);
        Model_copy (VRef Examples.home);
        Model_dump (VRef Examples.book)]
       (load "2.5.3" (Examples.library true))
  = @run (Touches.without (Touches.only_in false) (Pydantic.runtime true))
       [Get_model_fields (VRef Examples.Page);
        Field_is_required (VRef Examples.title);
        Field_get_default (VRef Examples.size);
        Model_copy (VRef Examples.home);
        Model_dump (VRef Examples.book)]
       (load "2.5.3" (Examples.library true)).
Proof.
  assert (N : Touches.same_names
     (Touches.names_used
        (PYDANTIC_V2 (globals (load "2.5.3" (Examples.library true)))))
     (Pydantic.runtime true)
     (Touches.without (Touches.only_in false) (Pydantic.runtime true))).
  { split; intros; simpl in H;
      repeat (destruct H as [<-|H]; [reflexivity|]); contradiction. }
  assert (C : Touches.same_comparisons
     (Pydantic.runtime true)
     (Touches.without (Touches.only_in false) (Pydantic.runtime true)))
    by (split; reflexivity).
  split; [split; [exact N | exact C]|].
  exact (only_the_names_of_the_detected_version_are_touched
           (Pydantic.runtime true)
           (Touches.without (Touches.only_in false) (Pydantic.runtime true))
           _ (load "2.5.3" (Examples.library true)) N C).
Defined.

(** X7.  Only [field_get_default], and only under v2, compares a value or
    takes its truth value: for every other operation, and for
    [field_get_default] when the flag is not set, two runtimes whose objects
    have the same attributes and methods give the same result and the same
    state, however their objects answer [==] and [bool()]. *)
Theorem only_field_get_default_under_v2_compares
        (rt1 rt2 : Runtime) (o : op) (st : state) :
  Touches.same_objects rt1 rt2 ->
  Touches.compares (PYDANTIC_V2 (globals st)) o = false ->
  @exec rt1 o st = @exec rt2 o st.
Proof.
  intros [Ha Hm] C.
  apply exec_agrees.
  - split; intros; [apply Ha | apply Hm].
  - intro T. rewrite T in C. discriminate.
Qed.

Lemma only_field_get_default_under_v2_compares_witness :
  (Touches.same_objects (Pydantic.runtime false)
     (Touches.incomparable (Pydantic.runtime false)) /\
   Touches.compares
     (PYDANTIC_V2 (globals (load "1.10.13" Touches.arrays_v1)))
     (Field_get_default (VRef Examples.weights_field)) = false) /\
  @exec (Pydantic.runtime false)
        (Field_get_default (VRef Examples.weights_field))
        (load "1.10.13" Touches.arrays_v1)
  = @exec (Touches.incomparable (Pydantic.runtime false))
        (Field_get_default (VRef Examples.weights_field))
        (load "1.10.13" Touches.arrays_v1).
Proof.
  assert (S : Touches.same_objects (Pydantic.runtime false)
                (Touches.incomparable (Pydantic.runtime false)))
    by (split; reflexivity).
  split; [split; [exact S | reflexivity]|].
  exact (only_field_get_default_under_v2_compares
           (Pydantic.runtime false)
           (Touches.incomparable (Pydantic.runtime false))
           (Field_get_default (VRef Examples.weights_field))
           (load "1.10.13" Touches.arrays_v1) S eq_refl).
Defined.

(** Under v1 the array default of [Touches.arrays_v1] comes back as a copy,
    uncompared. *)
Example array_default_is_returned_under_v1 :
  fst (field_get_default (rt := Pydantic.runtime false)
         (VRef Examples.weights_field) (load "1.10.13" Touches.arrays_v1))
  = Ok (VRef 3).
Proof. reflexivity. Qed.

(* ================================================================== *)
(** ** JSON text read back                                             *)
(* ================================================================== *)

Section Strings.

Lemma append_nil (s : string) : s ++ EmptyString = s.
Proof. induction s as [|c s IH]; simpl; [reflexivity | rewrite IH; reflexivity]. Qed.

Lemma append_assoc (a b c : string) : (a ++ b) ++ c = a ++ (b ++ c).
Proof. induction a as [|x a IH]; simpl; [reflexivity | rewrite IH; reflexivity]. Qed.

Lemma length_append (a b : string) :
  String.length (a ++ b) = String.length a + String.length b.
Proof. induction a as [|x a IH]; simpl; [reflexivity | rewrite IH; reflexivity]. Qed.

Lemma skip_blanks (w s : string) :
  Native.blanks w = true -> Json.skip_ws (w ++ s) = Json.skip_ws s.
Proof.
  induction w as [|c w IH]; simpl; [reflexivity|].
  intro B. apply andb_true_iff in B. destruct B as [B1 B2].
  rewrite B1. apply IH. exact B2.
Qed.

(** A character that opens a value is no blank and closes nothing. *)
Lemma opens_a_value_facts (c : ascii) :
  Native.opens_a_value c = true ->
  Json.is_ws c = false /\ (c =? "]")%char = false /\ (c =? "}")%char = false.
Proof.
  destruct c as [[|] [|] [|] [|] [|] [|] [|] [|]];
    try discriminate; intros _; repeat split.
Qed.

(** A digit is none of the characters that open another kind of value. *)
Lemma digit_facts (c : ascii) (k : Z) :
  Json.digit c = Some k ->
  (c =? "n")%char = false /\ (c =? "t")%char = false /\
  (c =? "f")%char = false /\ (c =? Json.dquote)%char = false /\
  (c =? "-")%char = false /\ (c =? "[")%char = false /\
  (c =? "{")%char = false /\ Json.is_ws c = false.
Proof.
  destruct c as [[|] [|] [|] [|] [|] [|] [|] [|]];
    try discriminate; intros _; repeat split.
Qed.

Lemma read_string_escape (s rest : string) :
  Json.read_string (Json.escape s ++ String Json.dquote rest) = Some (s, rest).
Proof.
  induction s as [|c s IH]; simpl.
  - reflexivity.
  - destruct ((c =? Json.dquote)%char) eqn:Q; simpl.
    + apply Ascii.eqb_eq in Q. subst c. simpl. rewrite IH. reflexivity.
    + destruct ((c =? Json.backslash)%char) eqn:B; simpl.
      * apply Ascii.eqb_eq in B. subst c. simpl. rewrite IH. reflexivity.
      * rewrite Q, B, IH. reflexivity.
Qed.

Lemma read_digits_uint (d : Decimal.uint) :
  forall (a : nat) (rest : string),
    Native.no_digit_ahead rest ->
    Json.read_digits (Z.of_nat a) (NilEmpty.string_of_uint d ++ rest)
      = (Z.of_nat (Nat.of_uint_acc d a), rest).
Proof.
  induction d; intros a rest N; simpl;
    try (match goal with
         | |- Json.read_digits ?z _ = (Z.of_nat (Nat.of_uint_acc _ ?a'), _) =>
             replace z with (Z.of_nat a')
               by (rewrite ?Nat2Z.inj_succ, Nat.tail_mul_spec, Nat2Z.inj_mul;
                   simpl; lia);
             apply IHd; exact N
         end).
  destruct rest as [|c rest]; simpl; [reflexivity|].
  simpl in N. rewrite N. reflexivity.
Qed.
End Strings.

Section Numbers.

Lemma read_number_uint (d : Decimal.uint) (rest : string) :
  Native.no_digit_ahead rest ->
  Json.read_number (NilZero.string_of_uint d ++ rest)
    = Some (Z.of_nat (Nat.of_uint d), rest) /\
  exists c s' k,
    NilZero.string_of_uint d = String c s' /\ Json.digit c = Some k.
Proof.
  intro N. unfold Nat.of_uint.
  destruct d;
    try (split;
         [ unfold Json.read_number; simpl NilZero.string_of_uint; simpl append;
           cbn [Json.digit nat_of_ascii]; simpl;
           match goal with
           | |- Some (Json.read_digits ?z ?s) = Some (Z.of_nat (Nat.of_uint_acc _ ?a'), _) =>
               replace z with (Z.of_nat a') by (simpl; lia);
               rewrite (read_digits_uint _ a' rest N); reflexivity
           end
         | eexists; eexists; eexists; split; reflexivity ]).
  split.
  - simpl. destruct rest as [|c rest]; simpl; [reflexivity|].
    simpl in N. rewrite N. reflexivity.
  - eexists; eexists; eexists; split; reflexivity.
Qed.

Lemma read_number_nat (n : nat) (rest : string) :
  Native.no_digit_ahead rest ->
  Json.read_number (Json.string_of_nat n ++ rest) = Some (Z.of_nat n, rest) /\
  exists c s' k, Json.string_of_nat n = String c s' /\ Json.digit c = Some k.
Proof.
  intro N. unfold Json.string_of_nat.
  destruct (read_number_uint (Nat.to_uint n) rest N) as [H1 H2].
  rewrite DecimalNat.Unsigned.of_to in H1. split; assumption.
Qed.
End Numbers.

Section Shapes.

Lemma value_induction (P : value -> Prop) :
  P VNone -> (forall b, P (VBool b)) -> (forall z, P (VInt z)) ->
  (forall s, P (VStr s)) ->
  (forall y mo d h mi s, P (VDatetime y mo d h mi s)) ->
  (forall l, Forall P l -> P (VTuple l)) ->
  (forall l, Forall P l -> P (VList l)) ->
  (forall l, Forall (fun p => P (snd p)) l -> P (VDict l)) ->
  (forall m n, P (VGlobal m n)) ->
  (forall o l, P o -> Forall P l -> P (VAlias o l)) ->
  (forall l, P (VRef l)) ->
  forall v, P v.
Proof.
  intros HN HB HZ HS HD HT HL HM HG HA HR.
  fix IH 1. intro v.
  destruct v as [|b|z|s|y mo d h mi s|l|l|l|m n|o l|l].
  - exact HN.
  - apply HB.
  - apply HZ.
  - apply HS.
  - apply HD.
  - apply HT. induction l as [|x l IHl]; constructor; [apply IH | exact IHl].
  - apply HL. induction l as [|x l IHl]; constructor; [apply IH | exact IHl].
  - apply HM. induction l as [|[k x] l IHl]; constructor; [apply IH | exact IHl].
  - apply HG.
  - apply HA; [apply IH|].
    induction l as [|x l IHl]; constructor; [apply IH | exact IHl].
  - apply HR.
Qed.

Lemma native_VList (l : list value) :
  Native.native (VList l) = Native.natives l.
Proof. induction l as [|x l IH]; simpl in *; [reflexivity | rewrite IH; reflexivity]. Qed.

Lemma native_VDict (l : list (string * value)) :
  Native.native (VDict l) = Native.native_members l.
Proof.
  induction l as [|[k x] l IH]; simpl in *; [reflexivity | rewrite IH; reflexivity].
Qed.

Lemma dumps_VList (i k : string) (l : list value) :
  Json.dumps i k (VList l)
    = match Native.dumps_items i k true l with
      | Some body => Some ("[" ++ body ++ "]")
      | None => None
      end.
Proof.
  assert (G : forall first,
             (fix go (first : bool) (l : list value) : option string :=
                match l with
                | [] => Some EmptyString
                | x :: l' =>
                    match Json.dumps i k x, go false l' with
                    | Some a, Some b =>
                        Some ((if first then EmptyString else i) ++ a ++ b)
                    | _, _ => None
                    end
                end) first l = Native.dumps_items i k first l).
  { induction l as [|x l IH]; intro first; [reflexivity|].
    simpl. rewrite (IH false). reflexivity. }
  rewrite <- (G true). reflexivity.
Qed.

Lemma dumps_VDict (i k : string) (l : list (string * value)) :
  Json.dumps i k (VDict l)
    = match Native.dumps_members i k true l with
      | Some body => Some ("{" ++ body ++ "}")
      | None => None
      end.
Proof.
  assert (G : forall first,
             (fix go (first : bool) (l : list (string * value)) : option string :=
                match l with
                | [] => Some EmptyString
                | (key, x) :: l' =>
                    match Json.dumps i k x, go false l' with
                    | Some a, Some b =>
                        Some ((if first then EmptyString else i) ++
                              Json.quote key ++ k ++ a ++ b)
                    | _, _ => None
                    end
                end) first l = Native.dumps_members i k first l).
  { induction l as [|[key x] l IH]; intro first; [reflexivity|].
    specialize (IH false). simpl in *. rewrite IH. reflexivity. }
  rewrite <- (G true). reflexivity.
Qed.

Lemma value_eqb_VList (xs ys : list value) :
  value_eqb (VList xs) (VList ys) = Native.eqb_items xs ys.
Proof.
  destruct xs, ys; reflexivity.
Qed.

Lemma value_eqb_VDict (xs ys : list (string * value)) :
  value_eqb (VDict xs) (VDict ys)
    = Nat.eqb (List.length xs) (List.length ys) && Native.eqb_members ys xs.
Proof.
  assert (G : forall zs,
             (fix go (xs : list (string * value)) : bool :=
                match xs with
                | [] => true
                | (k, x) :: xs' =>
                    match assoc k ys with
                    | Some y => value_eqb x y && go xs'
                    | None => false
                    end
                end) zs = Native.eqb_members ys zs).
  { induction zs as [|[k x] zs IH]; [reflexivity|].
    simpl. rewrite IH. reflexivity. }
  rewrite <- (G xs). reflexivity.
Qed.
End Shapes.

Section Unfolding.

Lemma read_value_S (n : nat) (s : string) :
  Json.read_value (S n) s =
    match Json.skip_ws s with
    | EmptyString => None
    | String c rest =>
        if (c =? "n")%char then
          option_map (fun r => (VNone, r)) (Json.strip "ull" rest)
        else if (c =? "t")%char then
          option_map (fun r => (VBool true, r)) (Json.strip "rue" rest)
        else if (c =? "f")%char then
          option_map (fun r => (VBool false, r)) (Json.strip "alse" rest)
        else if (c =? Json.dquote)%char then
          option_map (fun '(b, r) => (VStr b, r)) (Json.read_string rest)
        else if (c =? "-")%char then
          option_map (fun '(z, r) => (VInt (- z), r)) (Json.read_number rest)
        else if (c =? "[")%char then
          match Json.skip_ws rest with
          | String c' rest' =>
              if (c' =? "]")%char then Some (VList [], rest')
              else option_map (fun '(l, r) => (VList l, r))
                              (Json.read_items n rest)
          | EmptyString => None
          end
        else if (c =? "{")%char then
          match Json.skip_ws rest with
          | String c' rest' =>
              if (c' =? "}")%char then Some (VDict [], rest')
              else option_map (fun '(l, r) => (VDict l, r))
                              (Json.read_members n rest)
          | EmptyString => None
          end
        else option_map (fun '(z, r) => (VInt z, r))
                        (Json.read_number (String c rest))
    end.
Proof. reflexivity. Qed.

Lemma read_items_S (n : nat) (s : string) :
  Json.read_items (S n) s =
    match Json.read_value n s with
    | Some (v, s1) =>
        match Json.skip_ws s1 with
        | String c s2 =>
            if (c =? ",")%char then
              option_map (fun '(l, r) => (v :: l, r)) (Json.read_items n s2)
            else if (c =? "]")%char then Some ([v], s2)
            else None
        | EmptyString => None
        end
    | None => None
    end.
Proof. reflexivity. Qed.

Lemma read_members_S (n : nat) (s : string) :
  Json.read_members (S n) s =
    match Json.skip_ws s with
    | String q s0 =>
        if (q =? Json.dquote)%char then
          match Json.read_string s0 with
          | Some (k, s1) =>
              match Json.skip_ws s1 with
              | String colon s2 =>
                  if (colon =? ":")%char then
                    match Json.read_value n s2 with
                    | Some (v, s3) =>
                        match Json.skip_ws s3 with
                        | String c s4 =>
                            if (c =? ",")%char then
                              option_map (fun '(l, r) => ((k, v) :: l, r))
                                         (Json.read_members n s4)
                            else if (c =? "}")%char then Some ([(k, v)], s4)
                            else None
                        | EmptyString => None
                        end
                    | None => None
                    end
                  else None
              | EmptyString => None
              end
          | None => None
          end
        else None
    | EmptyString => None
    end.
Proof. reflexivity. Qed.

Lemma skip_to (w : string) (c : ascii) (r : string) :
  Native.blanks w = true -> Json.is_ws c = false ->
  Json.skip_ws (w ++ String c r) = String c r.
Proof.
  intros B C. rewrite (skip_blanks w _ B). simpl. rewrite C. reflexivity.
Qed.
End Unfolding.

Section RoundTrip.
Variables w1 w2 : string.
Hypothesis blank1 : Native.blanks w1 = true.
Hypothesis blank2 : Native.blanks w2 = true.

Lemma reads_back_None : Native.reads_back w1 w2 VNone.
Proof.
  intros _ t D. injection D as <-. split.
  - eexists; eexists; split; reflexivity.
  - intros [|n] w rest B F N; [simpl in F; lia|].
    rewrite read_value_S. simpl append.
    rewrite skip_to by (exact B || reflexivity). reflexivity.
Qed.

Lemma reads_back_Bool (b : bool) : Native.reads_back w1 w2 (VBool b).
Proof.
  intros _ t D. destruct b; injection D as <-; (split;
    [ eexists; eexists; split; reflexivity
    | intros [|n] w rest B F N; [simpl in F; lia|];
      rewrite read_value_S; simpl append;
      rewrite skip_to by (exact B || reflexivity); reflexivity ]).
Qed.

Lemma reads_back_Str (s : string) : Native.reads_back w1 w2 (VStr s).
Proof.
  intros _ t D. injection D as <-. split.
  - eexists; eexists; split; reflexivity.
  - intros [|n] w rest B F N; [simpl in F; lia|].
    rewrite read_value_S. unfold Json.quote. simpl append.
    rewrite skip_to by (exact B || reflexivity). simpl.
    rewrite append_assoc. simpl append.
    rewrite read_string_escape. reflexivity.
Qed.

Lemma reads_back_Int (z : Z) : Native.reads_back w1 w2 (VInt z).
Proof.
  intros _ t D. injection D as <-. unfold Json.string_of_Z.
  destruct (z <? 0)%Z eqn:S.
  - apply Z.ltb_lt in S. split.
    + eexists; eexists; split; reflexivity.
    + intros [|n] w rest B F N; [simpl in F; lia|].
      rewrite read_value_S. simpl append.
      rewrite skip_to by (exact B || reflexivity). simpl.
      destruct (read_number_nat (Z.to_nat (- z)) rest N) as [R _].
      rewrite R. simpl. rewrite Z2Nat.id by lia.
      rewrite Z.opp_involutive. reflexivity.
  - apply Z.ltb_ge in S.
    destruct (read_number_nat (Z.to_nat z) EmptyString I)
      as [_ (c & s' & k & E & Dg)].
    split.
    + exists c, s'. split; [exact E|].
      unfold Native.opens_a_value. rewrite Dg.
      rewrite !orb_true_r. reflexivity.
    + intros [|n] w rest B F N; [rewrite E in F; simpl in F; lia|].
      destruct (read_number_nat (Z.to_nat z) rest N) as [R _].
      destruct (digit_facts c k Dg) as (F1 & F2 & F3 & F4 & F5 & F6 & F7 & F8).
      rewrite read_value_S. rewrite E in *. simpl append in *.
      rewrite (skip_to w _ _ B F8).
      rewrite F1, F2, F3, F4, F5, F6, F7, R. simpl.
      rewrite Z2Nat.id by lia. reflexivity.
Qed.


Lemma read_items_back (l : list value) :
  Forall (Native.reads_back w1 w2) l ->
  Native.natives l = true ->
  forall tail,
    Native.dumps_items (String "," w1) (String ":" w2) false l = Some tail ->
  forall x t,
    Native.reads_back w1 w2 x -> Native.native x = true ->
    Json.dumps (String "," w1) (String ":" w2) x = Some t ->
  forall fuel w rest,
    Native.blanks w = true ->
    String.length t + String.length tail + 1 <= fuel ->
    Json.read_items fuel (w ++ t ++ tail ++ "]" ++ rest) = Some (x :: l, rest).
Proof.
  induction l as [|y l IH]; intros Hl Nl tail Dl x t Hx Nx Dx fuel w rest B F.
  - injection Dl as <-.
    destruct fuel as [|n]; [lia|].
    rewrite read_items_S.
    destruct (Hx Nx t Dx) as [_ R].
    rewrite (R n w ("" ++ "]" ++ rest) B) by (simpl; (lia || reflexivity)).
    reflexivity.
  - inversion Hl as [|? ? Hy Hl']; subst.
    simpl in Nl. apply andb_true_iff in Nl. destruct Nl as [Ny Nl].
    cbn [Native.dumps_items] in Dl.
    destruct (Json.dumps (String "," w1) (String ":" w2) y) as [ty|] eqn:Dy;
      [|discriminate].
    destruct (Native.dumps_items (String "," w1) (String ":" w2) false l)
      as [tail'|] eqn:Dl'; [|discriminate].
    injection Dl as <-.
    destruct fuel as [|n]; [lia|].
    rewrite read_items_S.
    destruct (Hx Nx t Dx) as [_ R].
    assert (E : String "," (w1 ++ ty ++ tail') ++ "]" ++ rest
                = String "," (w1 ++ ty ++ tail' ++ "]" ++ rest)).
    { simpl. rewrite !append_assoc. reflexivity. }
    rewrite E.
    rewrite (R n w _ B) by (simpl; (lia || reflexivity)).
    set (more := w1 ++ ty ++ tail' ++ "]" ++ rest).
    simpl. subst more.
    rewrite (IH Hl' Nl tail' eq_refl y ty Hy Ny Dy n w1 rest blank1).
    + reflexivity.
    + simpl in F. rewrite !length_append in F. lia.
Qed.

Lemma member_text (k w X : string) :
  Json.quote k ++ String ":" w ++ X
    = String Json.dquote
        (Json.escape k ++ String Json.dquote (String ":" (w ++ X))).
Proof. unfold Json.quote. simpl. rewrite append_assoc. reflexivity. Qed.

Lemma skip_none (c : ascii) (r : string) :
  Json.is_ws c = false -> Json.skip_ws (String c r) = String c r.
Proof. intro C. simpl. rewrite C. reflexivity. Qed.

Lemma read_members_back (l : list (string * value)) :
  Forall (fun p => Native.reads_back w1 w2 (snd p)) l ->
  Native.native_members l = true ->
  forall tail,
    Native.dumps_members (String "," w1) (String ":" w2) false l = Some tail ->
  forall k x t,
    Native.reads_back w1 w2 x -> Native.native x = true ->
    Json.dumps (String "," w1) (String ":" w2) x = Some t ->
  forall fuel w rest,
    Native.blanks w = true ->
    String.length t + String.length tail + 1 <= fuel ->
    Json.read_members fuel
      (w ++ Json.quote k ++ String ":" w2 ++ t ++ tail ++ "}" ++ rest)
    = Some ((k, x) :: l, rest).
Proof.
  induction l as [|[k' y] l IH];
    intros Hl Nl tail Dl k x t Hx Nx Dx fuel w rest B F.
  - injection Dl as <-.
    destruct fuel as [|n]; [lia|].
    destruct (Hx Nx t Dx) as [_ R].
    rewrite member_text, read_members_S.
    rewrite skip_to by (exact B || reflexivity).
    rewrite Ascii.eqb_refl, read_string_escape.
    rewrite skip_none by reflexivity.
    rewrite Ascii.eqb_refl.
    change ("" ++ "}" ++ rest) with ("}" ++ rest).
    rewrite (R n w2 ("}" ++ rest) blank2) by (simpl; (lia || reflexivity)).
    reflexivity.
  - inversion Hl as [|? ? Hy Hl']; subst. simpl in Hy.
    simpl in Nl. apply andb_true_iff in Nl. destruct Nl as [Ny Nl].
    apply andb_true_iff in Ny. destruct Ny as [_ Ny].
    cbn [Native.dumps_members] in Dl.
    destruct (Json.dumps (String "," w1) (String ":" w2) y) as [ty|] eqn:Dy;
      [|discriminate].
    destruct (Native.dumps_members (String "," w1) (String ":" w2) false l)
      as [tail'|] eqn:Dl'; [|discriminate].
    injection Dl as Dl.
    assert (E : tail ++ "}" ++ rest
                = String "," (w1 ++ Json.quote k' ++ String ":" w2 ++ ty ++
                              tail' ++ "}" ++ rest)).
    { rewrite <- Dl. unfold Json.quote.
      do 4 (simpl; rewrite ?append_assoc). reflexivity. }
    assert (L : String.length ty + String.length tail' + 2 <= String.length tail).
    { rewrite <- Dl. do 6 (simpl; rewrite ?length_append). lia. }
    destruct fuel as [|n]; [lia|].
    destruct (Hx Nx t Dx) as [_ R].
    rewrite member_text, read_members_S.
    rewrite skip_to by (exact B || reflexivity).
    rewrite Ascii.eqb_refl, read_string_escape.
    rewrite skip_none by reflexivity.
    rewrite Ascii.eqb_refl.
    rewrite E.
    rewrite (R n w2 _ blank2) by (simpl; (lia || reflexivity)).
    rewrite skip_none by reflexivity.
    rewrite Ascii.eqb_refl.
    rewrite (IH Hl' Nl tail' eq_refl k' y ty Hy Ny Dy n w1 rest blank1)
      by lia.
    reflexivity.
Qed.


Lemma reads_back_List (l : list value) :
  Forall (Native.reads_back w1 w2) l -> Native.reads_back w1 w2 (VList l).
Proof.
  intros Hl N t D. rewrite native_VList in N. rewrite dumps_VList in D.
  destruct l as [|x l].
  - injection D as <-. split; [eexists; eexists; split; reflexivity|].
    intros [|n] w rest B F Nd; [simpl in F; lia|].
    rewrite read_value_S. simpl append.
    rewrite skip_to by (exact B || reflexivity). reflexivity.
  - inversion Hl as [|? ? Hx Hl']; subst.
    simpl in N. apply andb_true_iff in N. destruct N as [Nx Nl].
    cbn [Native.dumps_items] in D.
    destruct (Json.dumps (String "," w1) (String ":" w2) x) as [tx|] eqn:Dx;
      [|discriminate].
    destruct (Native.dumps_items (String "," w1) (String ":" w2) false l)
      as [tail|] eqn:Dl; [|discriminate].
    injection D as D.
    split; [rewrite <- D; eexists; eexists; split; reflexivity|].
    intros fuel w rest B F Nd.
    assert (L : String.length tx + String.length tail + 2 <= String.length t).
    { rewrite <- D. do 4 (simpl; rewrite ?length_append). simpl. lia. }
    destruct fuel as [|n]; [lia|].
    set (items := tx ++ tail ++ "]" ++ rest).
    assert (E : t ++ rest = String "[" items).
    { rewrite <- D. subst items. do 4 (simpl; rewrite ?append_assoc).
      reflexivity. }
    rewrite E, read_value_S.
    rewrite skip_to by (exact B || reflexivity).
    destruct (Hx Nx tx Dx) as [(c & tx' & Etx & Oc) _].
    destruct (opens_a_value_facts c Oc) as (C1 & C2 & _).
    assert (SK : Json.skip_ws items
                 = String c (tx' ++ tail ++ "]" ++ rest)).
    { subst items. rewrite Etx. simpl. rewrite C1. reflexivity. }
    cbv beta iota delta [Ascii.eqb Bool.eqb].
    rewrite SK.
    change ((if (c =? "]")%char
             then Some (VList [], tx' ++ tail ++ "]" ++ rest)
             else option_map (fun '(l0, r) => (VList l0, r))
                             (Json.read_items n items))
            = Some (VList (x :: l), rest)).
    rewrite C2.
    change (Json.read_items n items)
      with (Json.read_items n (EmptyString ++ tx ++ tail ++ "]" ++ rest)).
    rewrite (read_items_back l Hl' Nl tail Dl x tx Hx Nx Dx n EmptyString rest
               eq_refl) by lia.
    reflexivity.
Qed.


Lemma reads_back_Dict (l : list (string * value)) :
  Forall (fun p => Native.reads_back w1 w2 (snd p)) l ->
  Native.reads_back w1 w2 (VDict l).
Proof.
  intros Hl N t D. rewrite native_VDict in N. rewrite dumps_VDict in D.
  destruct l as [|[k x] l].
  - injection D as <-. split; [eexists; eexists; split; reflexivity|].
    intros [|n] w rest B F Nd; [simpl in F; lia|].
    rewrite read_value_S. simpl append.
    rewrite skip_to by (exact B || reflexivity). reflexivity.
  - inversion Hl as [|? ? Hx Hl']; subst. simpl in Hx.
    simpl in N. apply andb_true_iff in N. destruct N as [Nx Nl].
    apply andb_true_iff in Nx. destruct Nx as [_ Nx].
    cbn [Native.dumps_members] in D.
    destruct (Json.dumps (String "," w1) (String ":" w2) x) as [tx|] eqn:Dx;
      [|discriminate].
    destruct (Native.dumps_members (String "," w1) (String ":" w2) false l)
      as [tail|] eqn:Dl; [|discriminate].
    injection D as D.
    split; [rewrite <- D; eexists; eexists; split; reflexivity|].
    intros fuel w rest B F Nd.
    assert (L : String.length tx + String.length tail + 2 <= String.length t).
    { rewrite <- D. do 6 (simpl; rewrite ?length_append). simpl. lia. }
    destruct fuel as [|n]; [lia|].
    set (members := Json.quote k ++ String ":" w2 ++ tx ++ tail ++ "}" ++ rest).
    assert (E : t ++ rest = String "{" members).
    { rewrite <- D. subst members. unfold Json.quote.
      do 6 (simpl; rewrite ?append_assoc). reflexivity. }
    rewrite E, read_value_S.
    rewrite skip_to by (exact B || reflexivity).
    assert (SK : Json.skip_ws members
                 = String Json.dquote
                     (Json.escape k ++
                      String Json.dquote
                        (String ":" (w2 ++ tx ++ tail ++ "}" ++ rest)))).
    { subst members. rewrite member_text. reflexivity. }
    cbv beta iota delta [Ascii.eqb Bool.eqb].
    rewrite SK.
    change (option_map (fun '(l0, r) => (VDict l0, r))
                       (Json.read_members n members)
            = Some (VDict ((k, x) :: l), rest)).
    change (Json.read_members n members)
      with (Json.read_members n
              (EmptyString ++ Json.quote k ++ String ":" w2 ++ tx ++ tail ++
               "}" ++ rest)).
    rewrite (read_members_back l Hl' Nl tail Dl k x tx Hx Nx Dx n EmptyString
               rest eq_refl) by lia.
    reflexivity.
Qed.

Lemma reads_back_all (d : value) : Native.reads_back w1 w2 d.
Proof.
  induction d using value_induction;
    try (intro N; discriminate N).
  - apply reads_back_None.
  - apply reads_back_Bool.
  - apply reads_back_Int.
  - apply reads_back_Str.
  - apply reads_back_List. assumption.
  - apply reads_back_Dict. assumption.
Qed.

Lemma loads_dumps (d : value) (t : string) :
  Native.native d = true ->
  Json.dumps (String "," w1) (String ":" w2) d = Some t ->
  Json.loads t = Some d.
Proof.
  intros N D. destruct (reads_back_all d N t D) as [_ R].
  specialize (R (2 * String.length t + 2) EmptyString EmptyString eq_refl).
  unfold Json.loads. simpl append in R. rewrite append_nil in R.
  rewrite R by (lia || exact I). reflexivity.
Qed.

Lemma dumps_native (d : value) :
  Native.native d = true ->
  exists t, Json.dumps (String "," w1) (String ":" w2) d = Some t.
Proof.
  induction d using value_induction; intro N; try discriminate N.
  - eexists; reflexivity.
  - destruct b; eexists; reflexivity.
  - eexists; reflexivity.
  - eexists; reflexivity.
  - rewrite native_VList in N. rewrite dumps_VList.
    assert (G : forall first, exists body,
               Native.dumps_items (String "," w1) (String ":" w2) first l
               = Some body).
    { induction l as [|x l IHl]; intro first; [eexists; reflexivity|].
      inversion H as [|? ? Hx Hl]; subst.
      simpl in N. apply andb_true_iff in N. destruct N as [Nx Nl].
      destruct (Hx Nx) as [tx Dx]. destruct (IHl Hl Nl false) as [tail Dl].
      simpl. rewrite Dx, Dl. eexists; reflexivity. }
    destruct (G true) as [body Db]. rewrite Db. eexists; reflexivity.
  - rewrite native_VDict in N. rewrite dumps_VDict.
    assert (G : forall first, exists body,
               Native.dumps_members (String "," w1) (String ":" w2) first l
               = Some body).
    { induction l as [|[k x] l IHl]; intro first; [eexists; reflexivity|].
      inversion H as [|? ? Hx Hl]; subst. simpl in Hx.
      simpl in N. apply andb_true_iff in N. destruct N as [Nx Nl].
      apply andb_true_iff in Nx. destruct Nx as [_ Nx].
      destruct (Hx Nx) as [tx Dx]. destruct (IHl Hl Nl false) as [tail Dl].
      simpl. rewrite Dx, Dl. eexists; reflexivity. }
    destruct (G true) as [body Db]. rewrite Db. eexists; reflexivity.
Qed.
End RoundTrip.

Section Equality.

Lemma assoc_of_member (l : list (string * value)) :
  Native.native_members l = true ->
  forall k x, In (k, x) l -> assoc k l = Some x.
Proof.
  induction l as [|[k0 x0] l IH]; intros N k x I; [destruct I|].
  simpl in N. apply andb_true_iff in N. destruct N as [N Nl].
  apply andb_true_iff in N. destruct N as [N _].
  apply andb_true_iff in N. destruct N as [_ Fk].
  simpl. destruct I as [I|I].
  - injection I as -> ->. rewrite String.eqb_refl. reflexivity.
  - destruct (String.eqb k k0) eqn:K.
    + apply String.eqb_eq in K. subst k0.
      unfold Native.fresh_key in Fk. apply negb_true_iff in Fk.
      assert (T : existsb (fun p => String.eqb k (fst p)) l = true).
      { apply existsb_exists. exists (k, x). split; [exact I|].
        simpl. apply String.eqb_refl. }
      rewrite T in Fk. discriminate.
    + apply IH; assumption.
Qed.

Lemma eqb_members_refl (ys xs : list (string * value)) :
  (forall k x, In (k, x) xs -> assoc k ys = Some x) ->
  Forall (fun p => value_eqb (snd p) (snd p) = true) xs ->
  Native.eqb_members ys xs = true.
Proof.
  induction xs as [|[k x] xs IH]; intros A R; [reflexivity|].
  inversion R as [|? ? Rx Rxs]; subst. simpl in Rx.
  simpl. rewrite (A k x) by (left; reflexivity).
  rewrite Rx. simpl. apply IH; [|exact Rxs].
  intros k' x' I. apply A. right. exact I.
Qed.

Lemma value_eqb_native (d : value) :
  Native.native d = true -> value_eqb d d = true.
Proof.
  induction d using value_induction; intro N; try discriminate N.
  - reflexivity.
  - destruct b; reflexivity.
  - simpl. apply Z.eqb_refl.
  - simpl. apply String.eqb_refl.
  - rewrite native_VList in N. rewrite value_eqb_VList.
    induction l as [|x l IHl]; [reflexivity|].
    inversion H as [|? ? Hx Hl]; subst.
    simpl in N. apply andb_true_iff in N. destruct N as [Nx Nl].
    simpl. rewrite (Hx Nx). simpl. apply IHl; assumption.
  - rewrite native_VDict in N. rewrite value_eqb_VDict.
    rewrite Nat.eqb_refl. simpl.
    apply eqb_members_refl.
    + apply assoc_of_member. exact N.
    + clear - H N. induction l as [|[k x] l IHl]; constructor.
      * inversion H as [|? ? Hx Hl]; subst. simpl in *.
        apply Hx.
        apply andb_true_iff in N. destruct N as [N _].
        apply andb_true_iff in N. destruct N as [_ N]. exact N.
      * inversion H as [|? ? Hx Hl]; subst. apply IHl; [exact Hl|].
        simpl in N. apply andb_true_iff in N. destruct N as [_ N]. exact N.
Qed.
End Equality.

Section LibraryForms.

Lemma library_dump (v2 : bool) (h : heap) (l cls : loc)
      (values : list (string * value)) :
  nth_error h l = Some (Pydantic.instance cls values) ->
  py_call_method (rt := Pydantic.runtime v2) (VRef l)
    (if v2 then "model_dump" else "dict") [] h
  = Pydantic.model_dump (VRef l) h.
Proof.
  intro H. unfold py_call_method. cbn [rt_call_method Pydantic.runtime].
  unfold Pydantic.ref_call_method, Pydantic.lookup, bind. rewrite H.
  destruct v2; reflexivity.
Qed.

Lemma library_json (v2 : bool) (h : heap) (l cls : loc)
      (values : list (string * value)) :
  nth_error h l = Some (Pydantic.instance cls values) ->
  py_call_method (rt := Pydantic.runtime v2) (VRef l)
    (if v2 then "model_dump_json" else "json") [] h
  = Pydantic.model_dump_json v2 (VRef l) h.
Proof.
  intro H. unfold py_call_method. cbn [rt_call_method Pydantic.runtime].
  unfold Pydantic.ref_call_method, Pydantic.lookup, bind. rewrite H.
  destruct v2; reflexivity.
Qed.
End LibraryForms.


